(** * MMS_Time_Tracking: ClickUp client, time collector and tag summary

    A shallow embedding of

    - [src/Web App/clickup_client.py] (class [ClickUpClient]; the same class
      is repeated verbatim at the top of [src/clickup_raw_code.py]),
    - [extract_tracked_time] of [src/clickup_raw_code.py], and
    - the tag summary script at the end of [src/clickup_raw_code.py]
      (repeated in [src/Web App/time-tracking-app.py]),

    with the properties of the specification stated over it.

    Conventions.
    - Python exceptions are values of [exn]; a call is a function from the
      trace of effects so far to a [result] and the extended trace.
    - The remote service is a deterministic function of the request and of
      the trace of earlier effects ([server]).
    - A free name of a method body is looked up in the module namespace
      when the body runs; the namespace is a [gmap string pyobj].  The
      namespaces the two source files build are [clickup_client_globals]
      and [clickup_raw_code_globals].
    - JSON payloads are typed as in the data model of the specification;
      a key read with [.get] is an [option].
    - Strings are byte strings.  [Str.lower] and [Str.strip] are
      Python's [str.lower] and [str.strip] on ASCII text, where they
      lower the letters A to Z and strip the ASCII white space; the
      general statements that depend on them carry the hypothesis that
      the text is ASCII ([Text.is_ascii]).
    - The numbers of a frame are exact rationals with the special values
      of a float division by zero ([NaN], [PInf], [NInf]).  They are the
      binary64 values pandas computes wherever every value involved is
      exactly representable, as the hours 0, 2 and 4 and the percentages
      0 and 100 of the examples are; values are stated at such inputs
      only, and the general statements do not depend on how a sum or a
      quotient is rounded.
    - The hours of a tracked interval are rounded in binary64
      ([Float]). *)

From Stdlib Require Import ZArith QArith Qround List String Ascii Lia Bool.
From Stdlib Require Import Sorted.
From stdpp Require Import base gmap strings list pretty.

Local Open Scope string_scope.
Local Open Scope list_scope.
Local Open Scope Z_scope.

(** ** Python values, exceptions, effects *)

Module Py.

(** Objects a module-level name can be bound to. *)
Inductive pyobj :=
| PyStr (s : string)
| PyInt (z : Z)
| PyObject (repr : string).

(** [str(x)], as an f-string field formats it. *)
Definition str (x : pyobj) : string :=
  match x with
  | PyStr s => s
  | PyInt z => pretty z
  | PyObject r => r
  end.

Inductive exn :=
| NameError (name : string)
| TypeError (msg : string)
| KeyError (key : string)
| ValueError (msg : string)
| HTTPError (status_code : Z).

(** The class name of an exception, as [type(e).__name__]. *)
Definition class_name (e : exn) : string :=
  match e with
  | NameError _ => "NameError"
  | TypeError _ => "TypeError"
  | KeyError _ => "KeyError"
  | ValueError _ => "ValueError"
  | HTTPError _ => "HTTPError"
  end.

(** The text an exception carries, as [str(e)]. *)
Definition message (e : exn) : string :=
  match e with
  | NameError n => "name '" ++ n ++ "' is not defined"
  | TypeError m => m
  | KeyError k => "'" ++ k ++ "'"
  | ValueError m => m
  | HTTPError c => pretty c ++ " Error"
  end.

(** The three endpoints the modelled functions request. *)
Inductive request :=
| GetListView (list_id : string)
    (* f'{self.base_url}list/{list_id}/view' *)
| GetViewTask (view_id : string) (params : gmap string pyobj)
    (* f'{self.base_url}/view/{view_id}/task', params=params *)
| GetTaskTime (task_id : string).
    (* f'{self.base_url}task/{task_id}/time' *)

Inductive event :=
| Request (r : request)
| Sleep (seconds : Z)
| PrintRateLimit (task_id : string)
    (* print(f"Rate limit hit! Waiting for 60 seconds before retrying task {task_id}...") *)
| PrintError (task_id : string) (e : string)
    (* print(f"Error processing task {task_id}: {e}") *)
| LogPage (page : Z) (tasks : nat)
    (* logging.info(f"Page: {page} (Tasks: {len(tasks)})") *)
| LogTotal (list_id : string) (tasks : nat).
    (* logging.info(f"Total tasks retrieved from list {list_id}: {len(all_tasks)}") *)

(** The trace holds the effects so far, the latest first. *)
Definition trace := list event.

Inductive result (A : Type) :=
| Return (a : A)
| Raise (e : exn)
| OutOfFuel.
Arguments Return {A} a.
Arguments Raise {A} e.
Arguments OutOfFuel {A}.

Definition M (A : Type) : Type := trace -> result A * trace.

Definition ret {A} (a : A) : M A := fun tr => (Return a, tr).
Definition raise {A} (e : exn) : M A := fun tr => (Raise e, tr).
Definition out_of_fuel {A} : M A := fun tr => (OutOfFuel, tr).
Definition emit (ev : event) : M unit := fun tr => (Return tt, ev :: tr).

Definition bind {A B} (c : M A) (k : A -> M B) : M B :=
  fun tr =>
    match c tr with
    | (Return a, tr') => k a tr'
    | (Raise e, tr') => (Raise e, tr')
    | (OutOfFuel, tr') => (OutOfFuel, tr')
    end.

(** [try: body / except requests.exceptions.HTTPError as err: handler]. *)
Definition try_except_HTTPError {A} (body : M A) (handler : Z -> M A) : M A :=
  fun tr =>
    match body tr with
    | (Raise (HTTPError status), tr') => handler status tr'
    | other => other
    end.

(** A name that is not local to the running body. *)
Definition load_global (G : gmap string pyobj) (name : string) : M pyobj :=
  match G !! name with
  | Some v => ret v
  | None => raise (NameError name)
  end.

End Py.

Import Py.

Declare Scope py_scope.
Delimit Scope py_scope with py.
Notation "x <- c ;; k" := (bind c (fun x => k))
  (at level 100, c at next level, right associativity) : py_scope.
Notation "c ;;; k" := (bind c (fun _ => k))
  (at level 100, right associativity) : py_scope.
Local Open Scope py_scope.

(** ** The remote service *)

Record View := { view_id : string; view_name : string }.
Record Task := { task_id : string; task_name : string }.

Record Interval := {
  interval_start : option Z;            (* interval.get('start') *)
  interval_end : option Z;              (* interval.get('end') *)
  interval_time : option Z;             (* interval.get('time', 0) *)
  interval_tags : option (list string)  (* interval.get('tags'), names only *)
}.

Record TimeEntry := {
  entry_user : option (option string);  (* entry.get('user', {}).get('username', 'Unknown') *)
  entry_intervals : option (list Interval)
}.

Record response (A : Type) := { status_code : Z; json : A }.
Arguments status_code {A} r.
Arguments json {A} r.

(** What the service answers to each request, given the effects so far.
    The body of an answer holds the one key the client reads from it. *)
Record server := {
  list_view : trace -> string -> response (option (list View));
    (* key 'views' of list/{id}/view *)
  view_task : trace -> string -> gmap string pyobj -> response (option (list Task));
    (* key 'tasks' of view/{id}/task *)
  task_time : trace -> string -> response (option (list TimeEntry))
    (* key 'data' of task/{id}/time *)
}.

(** Iterating a value that is a list or [None] ([for x in v],
    [l.extend(v)]). *)
Definition iterate {A} (v : option (list A)) : M (list A) :=
  match v with
  | None => raise (TypeError "'NoneType' object is not iterable")
  | Some l => ret l
  end.

(** [response.raise_for_status()]: client and server error codes raise. *)
Definition raise_for_status {A} (r : response A) : M unit :=
  if ((400 <=? status_code r) && (status_code r <? 600))%Z
  then raise (HTTPError (status_code r))
  else ret tt.

(** ** ClickUpClient *)

Module ClickUpClient.
Section Client.

Variable G : gmap string pyobj.   (* the module namespace *)
Variable srv : server.

(** [requests.get(url, headers=self.headers)] on the view endpoint. *)
Definition requests_get_list_view (list_id : string)
  : M (response (option (list View))) :=
  fun tr => (Return (list_view srv tr list_id), Request (GetListView list_id) :: tr).

Definition requests_get_view_task (view_id : string) (params : gmap string pyobj)
  : M (response (option (list Task))) :=
  fun tr => (Return (view_task srv tr view_id params),
             Request (GetViewTask view_id params) :: tr).

Definition requests_get_task_time (task_id : string)
  : M (response (option (list TimeEntry))) :=
  fun tr => (Return (task_time srv tr task_id), Request (GetTaskTime task_id) :: tr).

(** [get_views(self, view_id)].  The body never reads [view_id]; the URL
    is built from the name [list_id], which is neither a parameter nor a
    local of the method.  [None] is Python's [None], returned when
    [raise_for_status] does not raise. *)
Definition get_views (view_id : string) : M (option (list View)) :=
  list_id <- load_global G "list_id" ;;
  response <- requests_get_list_view (str list_id) ;;
  if status_code response =? 200
  then ret (Some (default [] (json response)))
  else (raise_for_status response ;;; ret None).

(** [for view in views: if view['name'] == 'DoNotAlter': return view]. *)
Fixpoint find_DoNotAlter (views : list View) : option View :=
  match views with
  | [] => None
  | view :: rest =>
      if String.eqb (view_name view) "DoNotAlter" then Some view
      else find_DoNotAlter rest
  end.

(** [get_table_view(self, list_id)]: [None] when no view has the name. *)
Definition get_table_view (list_id : string) : M (option View) :=
  views <- get_views list_id ;;
  views <- iterate views ;;
  ret (find_DoNotAlter views).

(** [get_view_tasks(self, view_id, params)]. *)
Definition get_view_tasks (view_id : string) (params : gmap string pyobj)
  : M (option (list Task)) :=
  response <- requests_get_view_task view_id params ;;
  if status_code response =? 200
  then ret (Some (default [] (json response)))
  else (raise_for_status response ;;; ret None).

(** [table_view['id']]. *)
Definition subscript_id (table_view : option View) : M string :=
  match table_view with
  | None => raise (TypeError "'NoneType' object is not subscriptable")
  | Some v => ret (view_id v)
  end.

(** The [while True] loop of [get_all_tasks]; one unit of fuel per
    iteration. *)
Fixpoint get_all_tasks_loop (fuel : nat) (list_id : string)
    (params : gmap string pyobj) (all_tasks : list Task) (page : Z)
  : M (list Task) :=
  match fuel with
  | O => out_of_fuel
  | S fuel =>
      let params := <["page" := PyInt page]> params in
      table_view <- get_table_view list_id ;;
      vid <- subscript_id table_view ;;
      tasks <- get_view_tasks vid params ;;
      tasks <- iterate tasks ;;
      let all_tasks := all_tasks ++ tasks in   (* all_tasks.extend(tasks) *)
      emit (LogPage page (length tasks)) ;;;
      if (length tasks <? 30)%nat
      then ret all_tasks
      else get_all_tasks_loop fuel list_id params all_tasks (page + 1)
  end.

(** [get_all_tasks(self, list_id, **params)]. *)
Definition get_all_tasks (fuel : nat) (list_id : string)
    (params : gmap string pyobj) : M (list Task) :=
  all_tasks <- get_all_tasks_loop fuel list_id params [] 0 ;;
  emit (LogTotal list_id (length all_tasks)) ;;;
  ret all_tasks.

(** [_get(f'task/{task_id}/time')] followed by [response['data']]. *)
Definition get_task_time_tracking (task_id : string) : M (list TimeEntry) :=
  response <- requests_get_task_time task_id ;;
  raise_for_status response ;;;
  match json response with
  | None => raise (KeyError "data")
  | Some data => ret data
  end.

End Client.
End ClickUpClient.

Import ClickUpClient.

(** The names [src/Web App/clickup_client.py] binds at module level. *)
Definition clickup_client_globals : gmap string pyobj :=
  list_to_map
    [ ("logging", PyObject "<module 'logging'>");
      ("requests", PyObject "<module 'requests'>");
      ("pd", PyObject "<module 'pandas'>");
      ("datetime", PyObject "<class 'datetime.datetime'>");
      ("ClickUpClient", PyObject "<class 'ClickUpClient'>") ].

(** ** extract_tracked_time *)

Module TimeTracking.

(** One row of the frame [extract_tracked_time] returns; the fields are
    the columns 'Task ID', 'Data Team Assignee',
    'Time Tracked (Duration) [hours]', 'Time Tracked (Start)',
    'Time Tracked (End)' and 'Tag Names'. *)
Record TrackedTime := {
  Task_ID : string;
  Data_Team_Assignee : string;
  Time_Tracked_Duration : Q;
  Time_Tracked_Start : string;
  Time_Tracked_End : string;
  Tag_Names : string
}.

Section Collector.

Variable G : gmap string pyobj.   (* the namespace of clickup_raw_code.py *)
Variable srv : server.

(** [datetime.fromtimestamp(ms / 1000).strftime('%Y-%m-%d %H:%M')]: the
    text depends on the time zone of the machine. *)
Variable strftime_local : Z -> string.

(** [round(duration_ms / 3600000, 2)]: the binary64 value, which is a
    rational. *)
Variable round_hours : Z -> Q.

(** [format_timestamp(unix_ms)]; [int(None)] raises. *)
Definition format_timestamp (unix_ms : option Z) : M string :=
  match unix_ms with
  | None =>
      raise (TypeError
        "int() argument must be a string, a bytes-like object or a real number, not 'NoneType'")
  | Some ms => ret (strftime_local ms)
  end.

(** [for interval in entry.get('intervals', []): ... records.append({...})] *)
Fixpoint for_intervals (task_id assignee : string) (intervals : list Interval)
    (records : list TrackedTime) : M (list TrackedTime) :=
  match intervals with
  | [] => ret records
  | interval :: rest =>
      let start := interval_start interval in
      let end_ := interval_end interval in
      let duration_ms := default 0 (interval_time interval) in
      let tags := String.concat ", " (default [] (interval_tags interval)) in
      started <- format_timestamp start ;;
      ended <- format_timestamp end_ ;;
      for_intervals task_id assignee rest
        (records ++ [ {| Task_ID := task_id;
                         Data_Team_Assignee := assignee;
                         Time_Tracked_Duration := round_hours duration_ms;
                         Time_Tracked_Start := started;
                         Time_Tracked_End := ended;
                         Tag_Names := tags |} ])
  end.

(** [entry.get('user', {}).get('username', 'Unknown')] *)
Definition username (entry : TimeEntry) : string :=
  match entry_user entry with
  | Some (Some name) => name
  | _ => "Unknown"
  end.

(** [for entry in time_entries: ...] *)
Fixpoint for_entries (task_id : string) (time_entries : list TimeEntry)
    (records : list TrackedTime) : M (list TrackedTime) :=
  match time_entries with
  | [] => ret records
  | entry :: rest =>
      let assignee := username entry in
      records <- for_intervals task_id assignee
                   (default [] (entry_intervals entry)) records ;;
      for_entries task_id rest records
  end.

(** The [except requests.exceptions.HTTPError as err] clause.  The first
    branch binds [time_entries] again and ends; the second formats the
    name [e], which the function never binds ([err] is the exception). *)
Definition except_HTTPError (task_id : string) (records : list TrackedTime)
    (status : Z) : M (list TrackedTime) :=
  if status =? 429 then
    emit (PrintRateLimit task_id) ;;;
    emit (Sleep 60) ;;;
    time_entries <- get_task_time_tracking srv task_id ;;
    ret records
  else
    e <- load_global G "e" ;;
    emit (PrintError task_id (str e)) ;;;
    ret records.

(** The body of [for task in tasks]. *)
Definition for_task (task : Task) (records : list TrackedTime)
  : M (list TrackedTime) :=
  let task_id := task_id task in
  try_except_HTTPError
    (time_entries <- get_task_time_tracking srv task_id ;;
     for_entries task_id time_entries records)
    (except_HTTPError task_id records).

Fixpoint for_tasks (tasks : list Task) (records : list TrackedTime)
  : M (list TrackedTime) :=
  match tasks with
  | [] => ret records
  | task :: rest =>
      records <- for_task task records ;;
      for_tasks rest records
  end.

(** [extract_tracked_time(client, tasks)]; the frame is its list of rows. *)
Definition extract_tracked_time (tasks : list Task) : M (list TrackedTime) :=
  for_tasks tasks [].

End Collector.
End TimeTracking.

Import TimeTracking.

(** The names [src/clickup_raw_code.py] binds at module level, by its
    imports, its [def]s and its top-level assignments.  The values are
    not modelled. *)
Definition clickup_raw_code_names : list string :=
  [ "os"; "logging"; "datetime"; "time"; "requests"; "pd"; "px"; "userdata";
    "timezone"; "ClickUpClient"; "extract_cf_info"; "extract_all_cf_info";
    "format_timestamp"; "extract_tracked_time"; "create_client_map";
    "create_root_cause_map"; "get_user_date"; "user_token"; "client"; "team";
    "team_id"; "team_name"; "team_members"; "assignee_ids"; "assignees";
    "start_date"; "end_date"; "START_DATE"; "END_DATE"; "data"; "df";
    "tag_input"; "search_tags"; "acid_df"; "acid_exploded"; "tag_summary";
    "dedup_total"; "total_row" ].

Definition clickup_raw_code_globals : gmap string pyobj :=
  list_to_map (map (fun name => (name, PyObject name)) clickup_raw_code_names).

(** ** Strings: [split], [strip], [lower] *)

Module Str.

(** [s.split(sep)] for a one-character separator. *)
Fixpoint split (sep : ascii) (s : string) : list string :=
  match s with
  | EmptyString => [EmptyString]
  | String c rest =>
      if Ascii.eqb c sep then EmptyString :: split sep rest
      else match split sep rest with
           | [] => [String c EmptyString]
           | word :: words => String c word :: words
           end
  end.

(** White space among the ASCII characters, as [str.isspace] has it
    there: tab to carriage return, the four separators and the space. *)
Definition is_space (c : ascii) : bool :=
  let n := nat_of_ascii c in
  ((9 <=? n) && (n <=? 13) || (28 <=? n) && (n <=? 32))%nat.

Fixpoint lstrip (s : string) : string :=
  match s with
  | EmptyString => EmptyString
  | String c rest => if is_space c then lstrip rest else s
  end.

Fixpoint rstrip (s : string) : string :=
  match s with
  | EmptyString => EmptyString
  | String c rest =>
      match rstrip rest with
      | EmptyString => if is_space c then EmptyString else String c EmptyString
      | rest' => String c rest'
      end
  end.

(** [s.strip()] for ASCII text. *)
Definition strip (s : string) : string := rstrip (lstrip s).

Definition lower_ascii (c : ascii) : ascii :=
  let n := nat_of_ascii c in
  if ((65 <=? n) && (n <=? 90))%nat then ascii_of_nat (n + 32) else c.

(** [s.lower()] for ASCII text. *)
Fixpoint lower (s : string) : string :=
  match s with
  | EmptyString => EmptyString
  | String c rest => String (lower_ascii c) (lower rest)
  end.

(** [x in l] for a list of strings. *)
Definition mem (x : string) (l : list string) : bool :=
  existsb (String.eqb x) l.

End Str.

(** ** Numbers of a frame *)

Module Num.

Inductive num :=
| Fin (q : Q)
| NaN
| PInf
| NInf.

Definition zero : num := Fin 0.
Definition of_Z (z : Z) : num := Fin (inject_Z z).

Definition add (x y : num) : num :=
  match x, y with
  | Fin a, Fin b => Fin (Qred (a + b))
  | NaN, _ | _, NaN => NaN
  | PInf, NInf | NInf, PInf => NaN
  | PInf, _ | _, PInf => PInf
  | NInf, _ | _, NInf => NInf
  end.

Definition sign (q : Q) : comparison := (q ?= 0)%Q.

Definition mul (x y : num) : num :=
  match x, y with
  | Fin a, Fin b => Fin (Qred (a * b))
  | NaN, _ | _, NaN => NaN
  | Fin a, PInf | PInf, Fin a =>
      match sign a with Gt => PInf | Lt => NInf | Eq => NaN end
  | Fin a, NInf | NInf, Fin a =>
      match sign a with Gt => NInf | Lt => PInf | Eq => NaN end
  | PInf, PInf | NInf, NInf => PInf
  | PInf, NInf | NInf, PInf => NInf
  end.

(** Float division: a zero divisor gives [NaN] or an infinity, it does
    not raise. *)
Definition div (x y : num) : num :=
  match x, y with
  | Fin a, Fin b =>
      match sign b with
      | Eq => match sign a with Gt => PInf | Lt => NInf | Eq => NaN end
      | _ => Fin (Qred (a / b))
      end
  | NaN, _ | _, NaN => NaN
  | Fin _, _ => Fin 0
  | PInf, Fin b => match sign b with Lt => NInf | _ => PInf end
  | NInf, Fin b => match sign b with Lt => PInf | _ => NInf end
  | _, _ => NaN
  end.

(** [x > 0]. *)
Definition gt0 (x : num) : bool :=
  match x with
  | Fin q => match sign q with Gt => true | _ => false end
  | PInf => true
  | _ => false
  end.

(** The integer nearest to [q], ties to the even one. *)
Definition rint (q : Q) : Z :=
  let f := Qfloor q in
  match ((q - inject_Z f) ?= (1 # 2))%Q with
  | Lt => f
  | Gt => f + 1
  | Eq => if Z.even f then f else f + 1
  end.

(** [.round(2)], on the exact value. *)
Definition round2 (x : num) : num :=
  match x with
  | Fin q => Fin (Qred (inject_Z (rint (q * 100)) / 100))
  | other => other
  end.

(** [.sum()] of a column: missing values are skipped. *)
Definition sum (l : list num) : num :=
  fold_left (fun acc x => match x with NaN => acc | _ => add acc x end) l zero.

End Num.

Import Num.

(** ** Frames *)

Module Pd.

(** A series: labels with their values, in order. *)
Definition Series := list (string * num).

Fixpoint series_get (s : Series) (label : string) : option num :=
  match s with
  | [] => None
  | (l, v) :: rest => if String.eqb l label then Some v else series_get rest label
  end.

(** A frame of numbers: row labels, column labels, and a value for each
    pair of them. *)
Record DataFrame := {
  index : list string;
  columns : list string;
  values : gmap (string * string) num
}.

Definition cell (df : DataFrame) (row col : string) : option num :=
  values df !! (row, col).

(** [df[col]]: a missing column raises [KeyError]. *)
Definition getitem (df : DataFrame) (col : string) : exn + Series :=
  if Str.mem col (columns df)
  then inr (map (fun r => (r, default NaN (cell df r col))) (index df))
  else inl (KeyError col).

(** [df[col] = series]: the series is aligned on the row labels. *)
Definition setitem (df : DataFrame) (col : string) (s : Series) : DataFrame :=
  {| index := index df;
     columns := if Str.mem col (columns df) then columns df else columns df ++ [col];
     values := fold_left
                 (fun m r => <[(r, col) := default NaN (series_get s r)]> m)
                 (index df) (values df) |}.

(** [df.sum(axis=1)] *)
Definition sum_axis1 (df : DataFrame) : Series :=
  map (fun r => (r, Num.sum (map (fun c => default NaN (cell df r c)) (columns df))))
      (index df).

(** [s1 / s2], aligned on the labels of [s1]. *)
Definition series_div (s1 s2 : Series) : Series :=
  map (fun '(l, v) => (l, Num.div v (default NaN (series_get s2 l)))) s1.

(** [s * k] *)
Definition series_mul (s : Series) (k : num) : Series :=
  map (fun '(l, v) => (l, Num.mul v k)) s.

(** [s.round(2)] and [df.round(2)] *)
Definition series_round (s : Series) : Series :=
  map (fun '(l, v) => (l, Num.round2 v)) s.

Definition round (df : DataFrame) : DataFrame :=
  {| index := index df; columns := columns df; values := Num.round2 <$> values df |}.

(** [df.loc[label] = series]: the series is reindexed to the columns of
    the frame, a column it lacks gets NaN; a frame without columns
    refuses the row. *)
Definition loc_setitem (df : DataFrame) (label : string) (s : Series)
  : exn + DataFrame :=
  match columns df with
  | [] => inl (ValueError "cannot set a frame with no defined columns")
  | _ =>
      inr {| index := if Str.mem label (index df) then index df
                      else index df ++ [label];
             columns := columns df;
             values := fold_left
                         (fun m c => <[(label, c) := default NaN (series_get s c)]> m)
                         (columns df) (values df) |}
  end.

(** Insertion into a sorted list without repetition: the order of group
    keys. *)
Fixpoint insert_sorted (x : string) (l : list string) : list string :=
  match l with
  | [] => [x]
  | y :: rest =>
      match String.compare x y with
      | Lt => x :: l
      | Eq => l
      | Gt => y :: insert_sorted x rest
      end
  end.

Definition sorted_unique (l : list string) : list string :=
  fold_right insert_sorted [] l.

End Pd.

Import Pd.

(** ** The tag summary script *)

Module Summary.

(** One time entry of the bulk response, with the keys the script reads:
    'id', 'duration' (milliseconds), 'billable' and 'tags' (the names;
    [None] when the value is not a list). *)
Record Entry := {
  id : string;
  duration : Z;
  billable : bool;
  tags : option (list string)
}.

(** A row of [df] with the columns the script adds. *)
Record Row := {
  entry : Entry;
  Duration_hours : num;       (* df["Duration (hours)"] *)
  Billable : string;          (* df["Billable"] *)
  TagName : list string       (* df["TagName"] *)
}.

(** A row of [acid_exploded]: the row of [acid_df] and one element of its
    'TagName' list, or no value when the list is empty. *)
Record ExplodedRow := {
  row : Row;
  TagName1 : option string
}.

(** [pd.to_numeric(df["duration"]) / (1000 * 60 * 60)] *)
Definition hours (e : Entry) : Q := Qred (inject_Z (duration e) / 3600000).

Definition label (b : bool) : string :=
  if b then "Billable" else "Non-Billable".

Definition make_row (e : Entry) : Row :=
  {| entry := e;
     Duration_hours := Fin (hours e);
     Billable := label (billable e);
     TagName := match tags e with
                | Some names => map Str.lower names
                | None => []
                end |}.

(** [search_tags = [tag.strip() for tag in tag_input.split(",") if tag.strip()]] *)
Definition parse_tags (tag_input : string) : list string :=
  map Str.strip
    (List.filter (fun tag => negb (String.eqb (Str.strip tag) ""))
            (Str.split "," tag_input)).

(** [any(tag["name"] in search_tags for tag in tags) if isinstance(tags, list) else False] *)
Definition has_search_tag (search_tags : list string) (r : Row) : bool :=
  match tags (entry r) with
  | Some names => existsb (fun name => Str.mem name search_tags) names
  | None => false
  end.

(** [acid_df = df[df["tags"].apply(...)].copy()] *)
Definition filter_rows (search_tags : list string) (df : list Row) : list Row :=
  List.filter (has_search_tag search_tags) df.

(** [acid_df.explode("TagName")] *)
Definition explode (df : list Row) : list ExplodedRow :=
  flat_map (fun r =>
              match TagName r with
              | [] => [ {| row := r; TagName1 := None |} ]
              | names => map (fun t => {| row := r; TagName1 := Some t |}) names
              end) df.

(** [acid_exploded[acid_exploded["TagName"].isin(search_tags)]] *)
Definition isin (search_tags : list string) (x : ExplodedRow) : bool :=
  match TagName1 x with
  | Some t => Str.mem t search_tags
  | None => false
  end.

(** The rows of one group of [groupby(["TagName", "Billable"])]. *)
Definition in_group (t lbl : string) (x : ExplodedRow) : bool :=
  match TagName1 x with
  | Some t' => String.eqb t' t && String.eqb (Billable (row x)) lbl
  | None => false
  end.

(** The sum of 'Duration (hours)' over one group. *)
Definition group_sum (rows : list ExplodedRow) (t lbl : string) : num :=
  Num.sum (map (fun x => Duration_hours (row x)) (List.filter (in_group t lbl) rows)).

(** [.groupby(["TagName", "Billable"])["Duration (hours)"].sum()]: one
    value for each pair of keys that occurs. *)
Definition groupby_sum (rows : list ExplodedRow) : gmap (string * string) num :=
  list_to_map
    (omap (fun x => match TagName1 x with
                    | Some t => Some ((t, Billable (row x)),
                                      group_sum rows t (Billable (row x)))
                    | None => None
                    end) rows).

Definition keys1 (rows : list ExplodedRow) : list string :=
  sorted_unique (omap TagName1 rows).

Definition keys2 (rows : list ExplodedRow) : list string :=
  sorted_unique
    (omap (fun x => match TagName1 x with
                    | Some _ => Some (Billable (row x))
                    | None => None
                    end) rows).

(** [.unstack(fill_value=0)]: the first key labels the rows, the second
    the columns; a pair that does not occur gets 0. *)
Definition unstack (rows : list ExplodedRow) : DataFrame :=
  let grouped := groupby_sum rows in
  {| index := keys1 rows;
     columns := keys2 rows;
     values := list_to_map
                 (flat_map (fun r =>
                    map (fun c => ((r, c), default Num.zero (grouped !! (r, c))))
                        (keys2 rows))
                    (keys1 rows)) |}.

(** [acid_df.drop_duplicates(subset="id")]: the first row of each id. *)
Fixpoint drop_duplicates_from (seen : list string) (df : list Row) : list Row :=
  match df with
  | [] => []
  | r :: rest =>
      if Str.mem (id (entry r)) seen then drop_duplicates_from seen rest
      else r :: drop_duplicates_from (id (entry r) :: seen) rest
  end.

Definition drop_duplicates (df : list Row) : list Row :=
  drop_duplicates_from [] df.

(** [dedup_total[dedup_total["Billable"] == lbl]["Duration (hours)"].sum()] *)
Definition sum_where (lbl : string) (df : list Row) : num :=
  Num.sum (map Duration_hours
             (List.filter (fun r => String.eqb (Billable r) lbl) df)).

(** The guarded percentage of the total row:
    [(b / t) * 100 if t > 0 else 0]. *)
Definition percent_guarded (b t : num) : num :=
  if Num.gt0 t then Num.mul (Num.div b t) (Num.of_Z 100) else Num.zero.

(** The dictionary [total_row], in the order its keys are set. *)
Definition total_row (acid_df : list Row) : Series :=
  let dedup_total := drop_duplicates acid_df in
  let b := sum_where "Billable" dedup_total in
  let n := sum_where "Non-Billable" dedup_total in
  let t := Num.add b n in
  [ ("Billable", b); ("Non-Billable", n); ("Total Hours", t);
    ("% Billable", percent_guarded b t) ].

(** The frame [tag_summary] before the total row is added: lines
    "Group by tag and billable status" of the script. *)
Definition tag_rows (acid_exploded : list ExplodedRow) : exn + DataFrame :=
  let tag_summary := unstack acid_exploded in
  let tag_summary := setitem tag_summary "Total Hours" (sum_axis1 tag_summary) in
  match getitem tag_summary "Billable" with
  | inl e => inl e
  | inr billable_hours =>
      match getitem tag_summary "Total Hours" with
      | inl e => inl e
      | inr total_hours =>
          let tag_summary :=
            setitem tag_summary "% Billable"
              (series_mul (series_div billable_hours total_hours) (Num.of_Z 100)) in
          inr (Pd.round tag_summary)
      end
  end.

(** The script from [if data:] to [display(tag_summary)].  The frame
    [df] is bound only when [data] is not empty. *)
Definition summarize (data : list Entry) (tag_input : string) : exn + DataFrame :=
  let search_tags := parse_tags tag_input in
  match data with
  | [] => inl (NameError "df")
  | _ =>
      let df := map make_row data in
      let acid_df := filter_rows search_tags df in
      let acid_exploded := List.filter (isin search_tags) (explode acid_df) in
      match tag_rows acid_exploded with
      | inl e => inl e
      | inr tag_summary =>
          loc_setitem tag_summary "Total" (series_round (total_row acid_df))
      end
  end.

End Summary.

Import Summary.

(** ** What the specification asks of the results *)

Module Spec.

(** The figure the data model gives for a summary row:
    [billableHours / totalHours * 100] when [totalHours > 0], else [0]. *)
Definition percentBillable (billableHours totalHours : num) : num :=
  if Num.gt0 totalHours
  then Num.mul (Num.div billableHours totalHours) (Num.of_Z 100)
  else Num.zero.

(** An error of the class the specification calls ViewNotFound, whose
    text names the list. *)
Definition is_ViewNotFound (e : exn) (list_id : string) : Prop :=
  class_name e = "ViewNotFound" /\
  exists before after, message e = (before ++ list_id ++ after)%string.

(** An error of the class the specification calls RateLimitExceeded. *)
Definition is_RateLimitExceeded (e : exn) : Prop :=
  class_name e = "RateLimitExceeded".

End Spec.

(** ** The accumulators of the summary, as functions of the input *)

Module Acc.

(** The rows of [acid_df] for the entries [data] and the tags typed. *)
Definition acid_df (search_tags : list string) (data : list Entry) : list Row :=
  filter_rows search_tags (map make_row data).

(** The rows of [acid_exploded]. *)
Definition acid_exploded (search_tags : list string) (data : list Entry)
  : list ExplodedRow :=
  List.filter (isin search_tags) (explode (acid_df search_tags data)).

End Acc.

(** ** binary64 *)

Module Float.

(** [2^k] as a rational. *)
Definition pow2 (k : Z) : Q :=
  if 0 <=? k then inject_Z (2 ^ k) else 1 # Z.to_pos (2 ^ (- k)).

(** For [q > 0], the exponent [e] with [2^e <= q < 2^(e+1)]. *)
Definition exponent (q : Q) : Z :=
  let e := Z.log2 (Qnum q) - Z.log2 (Zpos (Qden q)) in
  if Qle_bool (pow2 e) q then e else e - 1.

(** The number with a significand of 53 bits nearest to [q > 0], ties
    to the even significand. *)
Definition nearest_positive (q : Q) : Q :=
  let s := 52 - exponent q in
  (inject_Z (Num.rint (q * pow2 s)) * pow2 (- s))%Q.

(** The binary64 number nearest to [q], for [q] in the normal range. *)
Definition nearest (q : Q) : Q :=
  match (q ?= 0)%Q with
  | Eq => 0%Q
  | Gt => Qred (nearest_positive q)
  | Lt => Qred (- nearest_positive (- q))
  end.

(** [a / b] on integers that binary64 holds exactly. *)
Definition div (a b : Z) : Q := nearest (inject_Z a / inject_Z b).

(** [round(x, 2)] on a float: the decimal of two places nearest to the
    exact value of [x], ties to even, and the float nearest to it. *)
Definition round2 (x : Q) : Q :=
  nearest (inject_Z (Num.rint (x * 100)) / 100).

End Float.

(** ** Scenarios *)

Module Scenario.

Definition ok {A} (body : A) : response A := {| status_code := 200; json := body |}.
Definition failed {A} (code : Z) (body : A) : response A :=
  {| status_code := code; json := body |}.

Definition task (n : string) : Task := {| task_id := n; task_name := "task " ++ n |}.

(** Has the time of task [tid] been requested before? *)
Definition asked_time (tid : string) (tr : trace) : bool :=
  existsb (fun ev => match ev with
                     | Request (GetTaskTime t) => String.eqb t tid
                     | _ => false
                     end) tr.

(** Has any request been made before? *)
Definition asked_any (tr : trace) : bool :=
  existsb (fun ev => match ev with Request _ => true | _ => false end) tr.

Definition page_of (params : gmap string pyobj) : option Z :=
  match params !! "page" with
  | Some (PyInt n) => Some n
  | _ => None
  end.

(** The namespace of clickup_client.py with [list_id] bound besides.
    Neither source file builds it: it only shows what the paging loop
    would do if the name were defined. *)
Definition with_list_id (g : string) : gmap string pyobj :=
  <["list_id" := PyStr g]> clickup_client_globals.

Definition table_view (vid : string) : View :=
  {| view_id := vid; view_name := "DoNotAlter" |}.

(** A list with the required view and one page of two tasks. *)
Definition one_short_page : server :=
  {| list_view := fun _ _ => ok (Some [table_view "v1"]);
     view_task := fun _ _ params =>
       match page_of params with
       | Some 0 => ok (Some [task "a"; task "b"])
       | _ => ok (Some [])
       end;
     task_time := fun _ _ => ok (Some []) |}.

(** A list whose required view is replaced while its tasks are read: a
    full first page, then a page of one task. *)
Definition moving_view : server :=
  {| list_view := fun tr _ =>
       ok (Some [table_view (if asked_any tr then "v2" else "v1")]);
     view_task := fun _ _ params =>
       match page_of params with
       | Some 0 => ok (Some (repeat (task "x") 30))
       | _ => ok (Some [task "y"])
       end;
     task_time := fun _ _ => ok (Some []) |}.

(** A list without the required view. *)
Definition no_table_view : server :=
  {| list_view := fun _ _ =>
       ok (Some [ {| view_id := "v7"; view_name := "Board" |};
                  {| view_id := "v8"; view_name := "donotalter" |} ]);
     view_task := fun _ _ _ => ok (Some [task "a"]);
     task_time := fun _ _ => ok (Some []) |}.

Definition one_interval : list TimeEntry :=
  [ {| entry_user := Some (Some "sam");
       entry_intervals :=
         Some [ {| interval_start := Some 1000; interval_end := Some 7201000;
                   interval_time := Some 7200000;
                   interval_tags := Some ["acid"; "anode"] |} ] |} ].

(** The first request for the time of a task is refused with 429, the
    next ones are served. *)
Definition limited_once : server :=
  {| list_view := fun _ _ => ok None;
     view_task := fun _ _ _ => ok None;
     task_time := fun tr tid =>
       if asked_time tid tr then ok (Some one_interval) else failed 429 None |}.

(** Task "b" is refused with 429 every time, the others are served. *)
Definition limited_always : server :=
  {| list_view := fun _ _ => ok None;
     view_task := fun _ _ _ => ok None;
     task_time := fun _ tid =>
       if String.eqb tid "b" then failed 429 None else ok (Some one_interval) |}.

(** Task "a" fails with 500, the others are served. *)
Definition broken_task : server :=
  {| list_view := fun _ _ => ok None;
     view_task := fun _ _ _ => ok None;
     task_time := fun _ tid =>
       if String.eqb tid "a" then failed 500 None else ok (Some one_interval) |}.

(** A clock for the examples: the text of a stamp is its number. *)
Definition stamp (unix_ms : Z) : string := pretty unix_ms.

(** [round(duration_ms / 3600000, 2)] in binary64. *)
Definition round_hours (duration_ms : Z) : Q :=
  Float.round2 (Float.div duration_ms 3600000).

(** A billable entry of two hours with two tags. *)
Definition two_hours : Entry :=
  {| id := "e1"; duration := 7200000; billable := true;
     tags := Some ["acid"; "anode"] |}.

(** A billable entry of no duration. *)
Definition no_time : Entry :=
  {| id := "e2"; duration := 0; billable := true; tags := Some ["acid"] |}.

(** An entry of two hours that is not billable. *)
Definition unbilled : Entry :=
  {| id := "e4"; duration := 7200000; billable := false; tags := Some ["acid"] |}.

(** A billable entry whose tag is written with a capital. *)
Definition capital_tag : Entry :=
  {| id := "e3"; duration := 7200000; billable := true; tags := Some ["Acid"] |}.

(** The same entry with the tag in lower case. *)
Definition small_tag : Entry :=
  {| id := "e3"; duration := 7200000; billable := true; tags := Some ["acid"] |}.

(** A billable entry of two hours tagged twice, in either case. *)
Definition twice_tagged : Entry :=
  {| id := "e5"; duration := 7200000; billable := true;
     tags := Some ["acid"; "Acid"] |}.

End Scenario.
(** ** Notions the properties are stated with *)

Module Paging.

(** The service holds the pages [pages] of view [v] from page [k] on,
    under the query [params] with the page number added. *)
Definition serves (srv : server) (v : View) (params : gmap string pyobj)
    (k : Z) (pages : list (list Task)) : Prop :=
  forall tr (n : nat) page,
    pages !! n = Some page ->
    view_task srv tr (view_id v) (<["page" := PyInt (k + Z.of_nat n)]> params)
    = {| status_code := 200; json := Some page |}.

(** The number of times the views of a list were requested. *)
Definition view_resolutions (tr : trace) : nat :=
  length (List.filter (fun ev => match ev with
                            | Request (GetListView _) => true
                            | _ => false
                            end) tr).

(** The number of page requests. *)
Definition page_requests (tr : trace) : nat :=
  length (List.filter (fun ev => match ev with
                            | Request (GetViewTask _ _) => true
                            | _ => false
                            end) tr).

End Paging.

Import Paging.

(** ** Reading a summary *)

Module Report.

(** The value of a cell of the summary, when the script produced one. *)
Definition summary_cell (summary : exn + DataFrame) (row col : string)
  : option num :=
  match summary with
  | inr tag_summary => cell tag_summary row col
  | inl _ => None
  end.

End Report.

Import Report.

(** ** Teams and the bulk request *)

Module Workspace.

Record Team := {
  team_key : string;                    (* team['id'] *)
  team_label : string;                  (* team['name'] *)
  team_members : list (option (option Z))
    (* team['members']: for each member, the user and its id, if any *)
}.

(** [_get(endpoint)] on the answer [r]: [raise_for_status], then the
    JSON. *)
Definition _get {A} (r : response A) : exn + A :=
  if (400 <=? status_code r) && (status_code r <? 600)
  then inl (HTTPError (status_code r))
  else inr (json r).

(** [get_teams(self)]: [response['teams']]. *)
Definition get_teams (r : response (option (list Team))) : exn + list Team :=
  match _get r with
  | inl e => inl e
  | inr None => inl (KeyError "teams")
  | inr (Some teams) => inr teams
  end.

(** [get_team(self)]: the one team, or ValueError with the count. *)
Definition get_team (r : response (option (list Team))) : exn + Team :=
  match get_teams r with
  | inl e => inl e
  | inr [team] => inr team
  | inr teams =>
      inl (ValueError
             ("Expected exactly one team, got " ++ pretty (length teams))%string)
  end.

(** [fetch_clickup_data(self, ...)] on the answer [r]: the lines printed
    and the entries returned.  No status raises. *)
Definition fetch_clickup_data (r : response (option (list Entry)))
  : list string * list Entry :=
  if status_code r =? 200
  then ([], default [] (json r))
  else ([("API Error: " ++ pretty (status_code r))%string], []).

(** The script from [data = client.fetch_clickup_data(...)] to
    [display(tag_summary)]. *)
Definition report (r : response (option (list Entry))) (tag_input : string)
  : exn + DataFrame :=
  let data := (fetch_clickup_data r).2 in
  summarize data tag_input.

End Workspace.

(** ** Custom fields *)

Module Fields.

Record FieldOption := { option_name : option string }.   (* option.get('name') *)

(** A custom field with the keys the functions read; [V] is the type of
    the values a field can hold. *)
Record CustomField (V : Type) := {
  cf_name : option string;                      (* cf.get("name") *)
  cf_type : option string;                      (* cf.get("type") *)
  cf_options : option (option (list FieldOption));
    (* cf.get("type_config"), and in it .get('options') *)
  cf_value : option V;                          (* cf.get("value") *)
  cf_value_richtext : option V                  (* cf.get("value_richtext") *)
}.
Arguments cf_name {V} c.
Arguments cf_type {V} c.
Arguments cf_options {V} c.
Arguments cf_value {V} c.
Arguments cf_value_richtext {V} c.

(** The dictionary [extract_cf_info] returns. *)
Record CfInfo (V : Type) := {
  info_name : option string;
  info_type : option string;
  info_type_config : option (option (list FieldOption));
  info_value : option V;
  info_value_richtext : option V
}.
Arguments info_name {V} c.
Arguments info_value {V} c.

Record FieldTask (V : Type) := {
  custom_fields : option (list (CustomField V))   (* task.get('custom_fields') *)
}.
Arguments custom_fields {V} f.

(** [extract_cf_info(cf)] *)
Definition extract_cf_info {V} (cf : CustomField V) : CfInfo V :=
  {| info_name := cf_name cf;
     info_type := cf_type cf;
     info_type_config := cf_options cf;
     info_value := cf_value cf;
     info_value_richtext := cf_value_richtext cf |}.

(** [extract_all_cf_info(row)]: the dictionary from field name to field
    value, filled in the order of [row['custom_fields']]. *)
Definition extract_all_cf_info {V} (custom_fields : list (CustomField V))
  : gmap (option string) (option V) :=
  fold_left
    (fun cf_data cf =>
       let extracted_info := extract_cf_info cf in
       <[info_name extracted_info := info_value extracted_info]> cf_data)
    custom_fields ∅.

(** [field.get('type_config', {}).get('options', [])] *)
Definition options_of {V} (field : CustomField V) : list FieldOption :=
  match cf_options field with
  | Some (Some options) => options
  | _ => []
  end.

(** [for idx, option in enumerate(options): m[idx] = option.get('name')],
    counting from [idx]. *)
Fixpoint for_enumerate (idx : nat) (options : list FieldOption)
    (m : gmap nat (option string)) : gmap nat (option string) :=
  match options with
  | [] => m
  | option :: rest => for_enumerate (S idx) rest (<[idx := option_name option]> m)
  end.

(** [tasks[0]] on an empty list. *)
Inductive error := IndexError (msg : string).

(** The body shared by [create_client_map] and [create_root_cause_map]:
    the options of the fields called [field_name] of the first task, by
    position. *)
Definition create_map {V} (field_name : string) (tasks : list (FieldTask V))
  : error + gmap nat (option string) :=
  match tasks with
  | [] => inl (IndexError "list index out of range")
  | task1 :: _ =>
      let custom_fields := default [] (custom_fields task1) in
      inr (fold_left
             (fun m field =>
                if bool_decide (cf_name field = Some field_name)
                then for_enumerate 0 (options_of field) m
                else m)
             custom_fields ∅)
  end.

Definition create_client_map {V} : list (FieldTask V) -> _ := create_map "Client".
Definition create_root_cause_map {V} : list (FieldTask V) -> _ :=
  create_map "Root cause".

End Fields.

(** ** The rows of a task *)

Module Rows.



(** The row of one interval that has both its stamps. *)
Definition row_of (strftime_local : Z -> string) (round_hours : Z -> Q)
    (task_id assignee : string) (interval : Interval) : TrackedTime :=
  {| Task_ID := task_id;
     Data_Team_Assignee := assignee;
     Time_Tracked_Duration := round_hours (default 0 (interval_time interval));
     Time_Tracked_Start := strftime_local (default 0 (interval_start interval));
     Time_Tracked_End := strftime_local (default 0 (interval_end interval));
     Tag_Names := String.concat ", " (default [] (interval_tags interval)) |}.

(** The rows of the entries of a task: one for each interval, entry by
    entry. *)
Definition rows_of (strftime_local : Z -> string) (round_hours : Z -> Q)
    (task_id : string) (time_entries : list TimeEntry) : list TrackedTime :=
  flat_map (fun entry =>
              map (row_of strftime_local round_hours task_id (username entry))
                  (default [] (entry_intervals entry)))
           time_entries.




(** A service whose answer for task "b" lacks the key 'data'. *)
Definition no_data : server :=
  {| list_view := fun _ _ => Scenario.ok None;
     view_task := fun _ _ _ => Scenario.ok None;
     task_time := fun _ tid =>
       if String.eqb tid "b" then Scenario.ok None
       else Scenario.ok (Some Scenario.one_interval) |}.

End Rows.
(** ** Text of a tag *)

Module Text.

(** Does the character occur in the string? *)
Fixpoint contains (c : ascii) (s : string) : bool :=
  match s with
  | EmptyString => false
  | String c' rest => Ascii.eqb c' c || contains c rest
  end.

(** The first and the last character of a string. *)
Definition first (s : string) : option ascii :=
  match s with
  | EmptyString => None
  | String c _ => Some c
  end.

Fixpoint last (s : string) : option ascii :=
  match s with
  | EmptyString => None
  | String c rest =>
      match last rest with
      | Some c' => Some c'
      | None => Some c
      end
  end.

(** There is a character, and it is not white space. *)
Definition not_space (c : option ascii) : Prop :=
  match c with
  | Some c => Str.is_space c = false
  | None => False
  end.

(** A tag that is not empty and neither begins nor ends with white
    space. *)
Definition clean (tag : string) : Prop :=
  not_space (first tag) /\ not_space (last tag).

(** ASCII text: every character is below 128. *)
Fixpoint is_ascii (s : string) : bool :=
  match s with
  | EmptyString => true
  | String c rest => (nat_of_ascii c <? 128)%nat && is_ascii rest
  end.

(** The tag names of an entry are ASCII text. *)
Definition ascii_tags (e : Entry) : bool :=
  match tags e with
  | Some names => forallb is_ascii names
  | None => true
  end.

(** The key of a row of [df]. *)
Definition row_id (r : Row) : string := id (entry r).

End Text.

(** ** Shape of a summary *)

Module Shape.

(** Strictly increasing order of strings. *)
Definition before (a b : string) : Prop := String.compare a b = Lt.

(** Does some exploded row carry the label? *)
Definition has_label (lbl : string) (rows : list ExplodedRow) : bool :=
  existsb (fun x => String.eqb (Billable (row x)) lbl) rows.

(** The columns of a summary, given the labels that occur. *)
Definition columns_for (rows : list ExplodedRow) : list string :=
  ["Billable"]
    ++ (if has_label "Non-Billable" rows then ["Non-Billable"] else [])
    ++ ["Total Hours"; "% Billable"].

(** The summary of the entry of two hours for the tags "anode, acid". *)
Definition two_hours_summary : DataFrame :=
  match summarize [Scenario.two_hours] "anode, acid" with
  | inr tag_summary => tag_summary
  | inl _ => {| index := []; columns := []; values := ∅ |}
  end.

End Shape.

(** ** Required views *)

Module Required.

(** What [get_required_views] returns: the dictionary under
    'required_views' with its entry 'list' if it has one, the default
    [[]] when the key is missing, or [None]. *)
Inductive required :=
| Views (list_view : option View)
| EmptyList
| Nothing.

(** Exceptions of [get_list_view]: those of the client, and
    AttributeError. *)
Inductive failure :=
| Exn (e : exn)
| AttributeError (msg : string).

(** [get_required_views(self, list_id)] on the answer [r] of
    list/{list_id}/view: the body holds the value of 'required_views',
    if any, and in it the value of 'list', if any. *)
Definition get_required_views (r : response (option (option View)))
  : exn + required :=
  if status_code r =? 200
  then inr (match json r with
            | Some views => Views views
            | None => EmptyList
            end)
  else if (400 <=? status_code r) && (status_code r <? 600)
       then inl (HTTPError (status_code r))
       else inr Nothing.

(** [get_list_view(self, list_id)]: the body calls the method on the
    module-level name [client], not on [self], and then [.get('list', {})]
    on what it returns; [None] stands for the empty dictionary.  An
    opaque object bound to [client] is the client the script creates;
    strings and numbers have no such method. *)
Definition get_list_view (G : gmap string pyobj)
    (r : response (option (option View))) (list_id : string)
  : failure + option View :=
  match G !! "client" with
  | None => inl (Exn (NameError "client"))
  | Some (PyStr _) =>
      inl (AttributeError "'str' object has no attribute 'get_required_views'")
  | Some (PyInt _) =>
      inl (AttributeError "'int' object has no attribute 'get_required_views'")
  | Some (PyObject _) =>
      match get_required_views r with
      | inl e => inl (Exn e)
      | inr (Views list_view) => inr list_view
      | inr EmptyList => inl (AttributeError "'list' object has no attribute 'get'")
      | inr Nothing =>
          inl (AttributeError "'NoneType' object has no attribute 'get'")
      end
  end.

End Required.

(** * Properties *)

(** ** View resolution and paging *)

Section ClientFacts.

Variable G : gmap string pyobj.
Variable srv : server.

Lemma get_views_unbound view_id tr :
  G !! "list_id" = None ->
  get_views G srv view_id tr = (Raise (NameError "list_id"), tr).
Proof.
  intros HG. unfold get_views, bind, load_global. rewrite HG. reflexivity.
Qed.

Lemma get_table_view_unbound list_id tr :
  G !! "list_id" = None ->
  get_table_view G srv list_id tr = (Raise (NameError "list_id"), tr).
Proof.
  intros HG. unfold get_table_view, bind. rewrite get_views_unbound by exact HG.
  reflexivity.
Qed.

Lemma get_all_tasks_unbound fuel list_id params tr :
  G !! "list_id" = None ->
  get_all_tasks G srv (S fuel) list_id params tr = (Raise (NameError "list_id"), tr).
Proof.
  intros HG. unfold get_all_tasks, bind. simpl. unfold bind.
  rewrite get_table_view_unbound by exact HG. reflexivity.
Qed.

End ClientFacts.

Lemma clickup_client_globals_list_id : clickup_client_globals !! "list_id" = None.
Proof. vm_compute. reflexivity. Qed.

Lemma clickup_raw_code_globals_list_id : clickup_raw_code_globals !! "list_id" = None.
Proof. vm_compute. reflexivity. Qed.

Lemma clickup_raw_code_globals_e : clickup_raw_code_globals !! "e" = None.
Proof. vm_compute. reflexivity. Qed.

(** C10.  [get_views] does not depend on its argument, and in the
    namespace of either source file, where the name [list_id] it reads is
    not bound, [get_views], [get_table_view] and [get_all_tasks] raise
    NameError for every argument, whatever the service would answer. *)
Theorem get_views_raises_NameError :
  (forall G srv a b tr, get_views G srv a tr = get_views G srv b tr) /\
  (forall srv view_id tr,
      get_views clickup_client_globals srv view_id tr
      = (Raise (NameError "list_id"), tr)) /\
  (forall srv view_id tr,
      get_views clickup_raw_code_globals srv view_id tr
      = (Raise (NameError "list_id"), tr)) /\
  (forall srv list_id tr,
      get_table_view clickup_client_globals srv list_id tr
      = (Raise (NameError "list_id"), tr)) /\
  (forall srv list_id tr,
      get_table_view clickup_raw_code_globals srv list_id tr
      = (Raise (NameError "list_id"), tr)) /\
  (forall srv fuel list_id params tr,
      get_all_tasks clickup_client_globals srv (S fuel) list_id params tr
      = (Raise (NameError "list_id"), tr)) /\
  (forall srv fuel list_id params tr,
      get_all_tasks clickup_raw_code_globals srv (S fuel) list_id params tr
      = (Raise (NameError "list_id"), tr)).
Proof.
  repeat apply conj; intros.
  - reflexivity.
  - apply get_views_unbound, clickup_client_globals_list_id.
  - apply get_views_unbound, clickup_raw_code_globals_list_id.
  - apply get_table_view_unbound, clickup_client_globals_list_id.
  - apply get_table_view_unbound, clickup_raw_code_globals_list_id.
  - apply get_all_tasks_unbound, clickup_client_globals_list_id.
  - apply get_all_tasks_unbound, clickup_raw_code_globals_list_id.
Qed.

(** *** Paging once the view resolves *)

Section Paging.

Variable G : gmap string pyobj.
Variable srv : server.
Variable g : pyobj.
Variable v : View.
Variable params : gmap string pyobj.

Hypothesis list_id_bound : G !! "list_id" = Some g.

Hypothesis view_found : forall tr,
  status_code (list_view srv tr (str g)) = 200 /\
  find_DoNotAlter (default [] (json (list_view srv tr (str g)))) = Some v.

Lemma get_views_bound view_id tr :
  get_views G srv view_id tr
  = (Return (Some (default [] (json (list_view srv tr (str g))))),
     Request (GetListView (str g)) :: tr).
Proof.
  unfold get_views, bind, load_global. rewrite list_id_bound. simpl.
  destruct (view_found tr) as [Hs _]. rewrite Hs. reflexivity.
Qed.

Lemma get_table_view_found list_id tr :
  get_table_view G srv list_id tr
  = (Return (Some v), Request (GetListView (str g)) :: tr).
Proof.
  unfold get_table_view, bind. rewrite get_views_bound. simpl.
  destruct (view_found tr) as [_ Hf]. unfold ret. rewrite Hf. reflexivity.
Qed.

Lemma serves_tail k page pages :
  serves srv v params k (page :: pages) -> serves srv v params (k + 1) pages.
Proof.
  intros H tr n p Hn. specialize (H tr (S n) p Hn).
  replace (k + 1 + Z.of_nat n) with (k + Z.of_nat (S n)) by lia. exact H.
Qed.

Lemma get_all_tasks_loop_pages list_id full last :
  Forall (fun page => length page = 30%nat) full ->
  (length last < 30)%nat ->
  forall fuel k params' all_tasks tr,
    (length full < fuel)%nat ->
    (forall x, <["page" := x]> params' = <["page" := x]> params) ->
    serves srv v params k (full ++ [last]) ->
    (get_all_tasks_loop G srv fuel list_id params' all_tasks k tr).1
    = Return (all_tasks ++ concat (full ++ [last])).
Proof.
  intros Hfull Hlast. induction Hfull as [| page full Hpage Hfull IH];
    intros fuel k params' all_tasks tr Hfuel Hparams Hserves.
  - destruct fuel as [| fuel]; [simpl in Hfuel; lia |].
    simpl. unfold bind. rewrite get_table_view_found. simpl.
    unfold get_view_tasks, bind, requests_get_view_task.
    rewrite Hparams.
    pose proof (Hserves (Request (GetListView (str g)) :: tr) 0%nat last eq_refl) as Hp.
    rewrite Z.add_0_r in Hp. rewrite Hp. simpl.
    apply Nat.ltb_lt in Hlast. rewrite Hlast. simpl.
    rewrite app_nil_r. reflexivity.
  - destruct fuel as [| fuel]; [simpl in Hfuel; lia |].
    simpl. unfold bind. rewrite get_table_view_found. simpl.
    unfold get_view_tasks, bind, requests_get_view_task.
    rewrite Hparams.
    pose proof (Hserves (Request (GetListView (str g)) :: tr) 0%nat page eq_refl) as Hp.
    rewrite Z.add_0_r in Hp. rewrite Hp. simpl.
    assert (Hge : (length page <? 30)%nat = false)
      by (apply Nat.ltb_ge; lia).
    rewrite Hge.
    rewrite IH.
    + rewrite <- app_assoc. reflexivity.
    + simpl in Hfuel. lia.
    + intros x. apply insert_insert_eq.
    + eapply serves_tail. exact Hserves.
Qed.

(** Once [list_id] is bound and the required view exists, a list whose
    pages are all full but the last, which is short, is returned whole
    and in order, given fuel for one iteration per page. *)
Lemma get_all_tasks_pages list_id full last fuel tr :
  Forall (fun page => length page = 30%nat) full ->
  (length last < 30)%nat ->
  (length full < fuel)%nat ->
  serves srv v params 0 (full ++ [last]) ->
  (get_all_tasks G srv fuel list_id params tr).1
  = Return (concat (full ++ [last])).
Proof.
  intros Hfull Hlast Hfuel Hserves.
  pose proof (get_all_tasks_loop_pages list_id full last Hfull Hlast
                fuel 0 params [] tr Hfuel (fun _ => eq_refl) Hserves) as H.
  unfold get_all_tasks, bind.
  destruct (get_all_tasks_loop G srv fuel list_id params [] 0 tr) as [r tr'].
  simpl in H. subst r. reflexivity.
Qed.

End Paging.

(** *** The view is never resolved *)

(** C6 on the code.  In the namespace of either source file a call of
    [get_all_tasks] ends with NameError inside its first call of
    [get_table_view], whatever the service holds: the views of the list
    are not requested and no page is requested, so no view is resolved,
    neither once nor for each page, and no view id is used for any page
    request.  So it is on a list of two pages. *)
Theorem get_all_tasks_resolves_no_view :
  (forall srv fuel list_id params tr,
      (get_all_tasks clickup_client_globals srv (S fuel) list_id params tr).1
      = Raise (NameError "list_id") /\
      view_resolutions
        (get_all_tasks clickup_client_globals srv (S fuel) list_id params tr).2
      = view_resolutions tr /\
      page_requests
        (get_all_tasks clickup_client_globals srv (S fuel) list_id params tr).2
      = page_requests tr) /\
  (forall srv fuel list_id params tr,
      (get_all_tasks clickup_raw_code_globals srv (S fuel) list_id params tr).1
      = Raise (NameError "list_id") /\
      view_resolutions
        (get_all_tasks clickup_raw_code_globals srv (S fuel) list_id params tr).2
      = view_resolutions tr /\
      page_requests
        (get_all_tasks clickup_raw_code_globals srv (S fuel) list_id params tr).2
      = page_requests tr) /\
  get_all_tasks clickup_client_globals Scenario.moving_view 5 "L1" ∅ []
  = (Raise (NameError "list_id"), []) /\
  view_resolutions
    (get_all_tasks clickup_client_globals Scenario.moving_view 5 "L1" ∅ []).2
  = 0%nat /\
  page_requests
    (get_all_tasks clickup_client_globals Scenario.moving_view 5 "L1" ∅ []).2
  = 0%nat.
Proof.
  split; [| split].
  - intros. rewrite get_all_tasks_unbound by exact clickup_client_globals_list_id.
    repeat apply conj; reflexivity.
  - intros. rewrite get_all_tasks_unbound by exact clickup_raw_code_globals_list_id.
    repeat apply conj; reflexivity.
  - repeat apply conj; vm_compute; reflexivity.
Qed.

(** *** A list without the required view *)

(** C7 on the code.  The list of [Scenario.no_table_view] has two views,
    neither named exactly DoNotAlter.  In the namespace of either source
    file [get_table_view] on it does not return a value, [None] or
    other: it raises NameError from [get_views], before the views are
    requested; and [get_all_tasks] raises the same NameError, which is
    not a ViewNotFound error and does not name the list. *)
Theorem get_table_view_raises_without_table_view :
  json (list_view Scenario.no_table_view [] "L1")
  = Some [ {| view_id := "v7"; view_name := "Board" |};
           {| view_id := "v8"; view_name := "donotalter" |} ] /\
  find_DoNotAlter
    (default [] (json (list_view Scenario.no_table_view [] "L1"))) = None /\
  get_table_view clickup_client_globals Scenario.no_table_view "L1" []
  = (Raise (NameError "list_id"), []) /\
  get_table_view clickup_raw_code_globals Scenario.no_table_view "L1" []
  = (Raise (NameError "list_id"), []) /\
  get_all_tasks clickup_client_globals Scenario.no_table_view 5 "L1" ∅ []
  = (Raise (NameError "list_id"), []) /\
  get_all_tasks clickup_raw_code_globals Scenario.no_table_view 5 "L1" ∅ []
  = (Raise (NameError "list_id"), []) /\
  ~ Spec.is_ViewNotFound (NameError "list_id") "L1".
Proof.
  repeat apply conj; try (vm_compute; reflexivity).
  intros [Hclass _]. discriminate Hclass.
Qed.

(** C1 at a list of one short page.  In the namespace of the source file
    the call raises NameError before any request; with [list_id] bound
    the same call returns the page. *)
Theorem get_all_tasks_one_short_page :
  get_all_tasks clickup_client_globals Scenario.one_short_page 3 "L1" ∅ []
  = (Raise (NameError "list_id"), []) /\
  (get_all_tasks (Scenario.with_list_id "L1") Scenario.one_short_page 3 "L1" ∅ []).1
  = Return [Scenario.task "a"; Scenario.task "b"].
Proof.
  split; vm_compute; reflexivity.
Qed.

(** ** The collector *)

Section CollectorFacts.

Variable G : gmap string pyobj.
Variable srv : server.
Variable strftime_local : Z -> string.
Variable round_hours : Z -> Q.

Local Abbreviation for_task := (for_task G srv strftime_local round_hours).
Local Abbreviation for_tasks := (for_tasks G srv strftime_local round_hours).
Local Abbreviation extract_tracked_time :=
  (extract_tracked_time G srv strftime_local round_hours).

Lemma for_tasks_app before after records tr :
  for_tasks (before ++ after) records tr
  = bind (for_tasks before records) (for_tasks after) tr.
Proof.
  revert records tr. induction before as [| task before IH]; intros records tr.
  - reflexivity.
  - simpl. unfold bind.
    destruct (for_task task records tr) as [[records' | e |] tr']; try reflexivity.
    rewrite IH. reflexivity.
Qed.

(** The request of a task that is refused with 429: the notice, the wait
    of 60 seconds and the one retry follow, whatever the retry brings. *)
Lemma for_task_429_trace task records tr :
  status_code (task_time srv tr (task_id task)) = 429 ->
  (for_task task records tr).2
  = Request (GetTaskTime (task_id task))
      :: Sleep 60 :: PrintRateLimit (task_id task)
      :: Request (GetTaskTime (task_id task)) :: tr.
Proof.
  intros H429.
  unfold TimeTracking.for_task, try_except_HTTPError, bind,
    get_task_time_tracking, bind, requests_get_task_time, raise_for_status.
  rewrite H429. simpl.
  unfold except_HTTPError, bind, get_task_time_tracking, bind,
    requests_get_task_time, raise_for_status. simpl.
  destruct ((400 <=? _) && (_ <? 600))%Z; simpl; [reflexivity |].
  destruct (json _); reflexivity.
Qed.

(** When the retry is refused as well, the error leaves the loop. *)
Lemma for_task_429_twice task records tr :
  status_code (task_time srv tr (task_id task)) = 429 ->
  let tr1 := Sleep 60 :: PrintRateLimit (task_id task)
               :: Request (GetTaskTime (task_id task)) :: tr in
  let retry := task_time srv tr1 (task_id task) in
  400 <= status_code retry < 600 ->
  for_task task records tr
  = (Raise (HTTPError (status_code retry)),
     Request (GetTaskTime (task_id task)) :: tr1).
Proof.
  intros H429 tr1 retry Hretry.
  unfold TimeTracking.for_task, try_except_HTTPError, bind,
    get_task_time_tracking, bind, requests_get_task_time, raise_for_status.
  rewrite H429. simpl.
  unfold except_HTTPError, bind, get_task_time_tracking, bind,
    requests_get_task_time, raise_for_status. simpl.
  fold tr1. fold retry.
  assert (Hc : ((400 <=? status_code retry) && (status_code retry <? 600))%Z = true).
  { apply andb_true_iff. split; [apply Z.leb_le | apply Z.ltb_lt]; lia. }
  rewrite Hc. reflexivity.
Qed.

(** A failure other than 429, in a namespace that does not bind [e]:
    formatting the message raises NameError, and the loop ends. *)
Lemma for_task_error_unbound task records tr :
  G !! "e" = None ->
  let status := status_code (task_time srv tr (task_id task)) in
  400 <= status < 600 -> status <> 429 ->
  forall after,
    for_tasks (task :: after) records tr
    = (Raise (NameError "e"), Request (GetTaskTime (task_id task)) :: tr).
Proof.
  intros HG status Hstatus Hne after. simpl. unfold bind at 1.
  unfold TimeTracking.for_task, try_except_HTTPError, bind,
    get_task_time_tracking, bind, requests_get_task_time, raise_for_status.
  fold status.
  assert (Hc : ((400 <=? status) && (status <? 600))%Z = true).
  { apply andb_true_iff. split; [apply Z.leb_le | apply Z.ltb_lt]; lia. }
  rewrite Hc. simpl.
  unfold except_HTTPError.
  assert (Hn : (status =? 429) = false) by (apply Z.eqb_neq; exact Hne).
  rewrite Hn. unfold bind, load_global. rewrite HG. reflexivity.
Qed.

(** C2, as the code has it.  When the request for the time of a task is
    refused with 429, the collector prints a notice, waits 60 seconds and
    repeats that request once, and makes no further request for the
    task.  When the repeated request fails with an HTTP error as well,
    that error is raised by [extract_tracked_time] itself: the call
    ends there and returns no records. *)
Theorem extract_tracked_time_retries_once before task after records tr0 tr :
  for_tasks before [] tr0 = (Return records, tr) ->
  status_code (task_time srv tr (task_id task)) = 429 ->
  let tr1 := Sleep 60 :: PrintRateLimit (task_id task)
               :: Request (GetTaskTime (task_id task)) :: tr in
  let retry := task_time srv tr1 (task_id task) in
  (for_task task records tr).2 = Request (GetTaskTime (task_id task)) :: tr1 /\
  (400 <= status_code retry < 600 ->
   extract_tracked_time (before ++ task :: after) tr0
   = (Raise (HTTPError (status_code retry)),
      Request (GetTaskTime (task_id task)) :: tr1)).
Proof.
  intros Hbefore H429 tr1 retry. split.
  - apply for_task_429_trace. exact H429.
  - intros Hretry. unfold TimeTracking.extract_tracked_time.
    rewrite for_tasks_app. unfold bind at 1. rewrite Hbefore.
    simpl. unfold bind at 1.
    rewrite (for_task_429_twice task records tr H429 Hretry). reflexivity.
Qed.

End CollectorFacts.

Lemma extract_tracked_time_retries_once_witness :
  for_tasks clickup_raw_code_globals Scenario.limited_always
    Scenario.stamp Scenario.round_hours [Scenario.task "a"] [] []
  = (Return [ {| Task_ID := "a"; Data_Team_Assignee := "sam";
                 Time_Tracked_Duration := 2;
                 Time_Tracked_Start := "1000";
                 Time_Tracked_End := "7201000";
                 Tag_Names := "acid, anode" |} ],
     [Request (GetTaskTime "a")]) /\
  status_code (task_time Scenario.limited_always [Request (GetTaskTime "a")] "b")
  = 429 /\
  (for_task clickup_raw_code_globals Scenario.limited_always
     Scenario.stamp Scenario.round_hours (Scenario.task "b")
     [ {| Task_ID := "a"; Data_Team_Assignee := "sam";
          Time_Tracked_Duration := 2;
          Time_Tracked_Start := "1000";
          Time_Tracked_End := "7201000";
          Tag_Names := "acid, anode" |} ]
     [Request (GetTaskTime "a")]).2
  = [ Request (GetTaskTime "b"); Sleep 60; PrintRateLimit "b";
      Request (GetTaskTime "b"); Request (GetTaskTime "a") ] /\
  extract_tracked_time clickup_raw_code_globals Scenario.limited_always
    Scenario.stamp Scenario.round_hours
    ([Scenario.task "a"] ++ Scenario.task "b" :: [Scenario.task "c"]) []
  = (Raise (HTTPError 429),
     [ Request (GetTaskTime "b"); Sleep 60; PrintRateLimit "b";
       Request (GetTaskTime "b"); Request (GetTaskTime "a") ]).
Proof.
  assert (H1 : for_tasks clickup_raw_code_globals Scenario.limited_always
                 Scenario.stamp Scenario.round_hours [Scenario.task "a"] [] []
               = (Return [ {| Task_ID := "a"; Data_Team_Assignee := "sam";
                              Time_Tracked_Duration := 2;
                              Time_Tracked_Start := "1000";
                              Time_Tracked_End := "7201000";
                              Tag_Names := "acid, anode" |} ],
                  [Request (GetTaskTime "a")]))
    by (vm_compute; reflexivity).
  assert (H2 : status_code (task_time Scenario.limited_always
                              [Request (GetTaskTime "a")]
                              (task_id (Scenario.task "b"))) = 429)
    by reflexivity.
  split; [exact H1 |]. split; [exact H2 |].
  destruct (extract_tracked_time_retries_once
              clickup_raw_code_globals Scenario.limited_always
              Scenario.stamp Scenario.round_hours
              [Scenario.task "a"] (Scenario.task "b") [Scenario.task "c"]
              _ [] _ H1 H2) as [Htrace Hraise].
  split; [exact Htrace |].
  apply Hraise. simpl. lia.
Defined.

(** C2, as stated, fails.  After a refusal and a served retry the rows of
    the task are missing from the result: the retried answer is bound
    and not read.  After two refusals the call raises HTTPError for the
    whole batch; the rows collected before are not returned, and the
    error is not a RateLimitExceeded. *)
Lemma extract_tracked_time_429_loses_rows :
  extract_tracked_time clickup_raw_code_globals Scenario.limited_once
    Scenario.stamp Scenario.round_hours [Scenario.task "a"] []
  = (Return [],
     [ Request (GetTaskTime "a"); Sleep 60; PrintRateLimit "a";
       Request (GetTaskTime "a") ]) /\
  task_time Scenario.limited_once
    [Sleep 60; PrintRateLimit "a"; Request (GetTaskTime "a")] "a"
  = Scenario.ok (Some Scenario.one_interval) /\
  extract_tracked_time clickup_raw_code_globals Scenario.limited_always
    Scenario.stamp Scenario.round_hours
    [Scenario.task "a"; Scenario.task "b"; Scenario.task "c"] []
  = (Raise (HTTPError 429),
     [ Request (GetTaskTime "b"); Sleep 60; PrintRateLimit "b";
       Request (GetTaskTime "b"); Request (GetTaskTime "a") ]) /\
  ~ Spec.is_RateLimitExceeded (HTTPError 429).
Proof.
  split; [vm_compute; reflexivity |].
  split; [vm_compute; reflexivity |].
  split; [vm_compute; reflexivity |].
  intros H. discriminate H.
Qed.

(** C8 at two tasks of which the first fails with status 500.  The
    handler formats the name [e], which nothing binds, so the call
    raises NameError: nothing is printed, the second task is not
    requested and no rows are returned.  Without the failing task the
    rows of the others are returned. *)
Theorem extract_tracked_time_500_raises_NameError :
  extract_tracked_time clickup_raw_code_globals Scenario.broken_task
    Scenario.stamp Scenario.round_hours
    [Scenario.task "a"; Scenario.task "c"] []
  = (Raise (NameError "e"), [Request (GetTaskTime "a")]) /\
  extract_tracked_time clickup_raw_code_globals Scenario.broken_task
    Scenario.stamp Scenario.round_hours [Scenario.task "c"] []
  = (Return [ {| Task_ID := "c"; Data_Team_Assignee := "sam";
                 Time_Tracked_Duration := 2;
                 Time_Tracked_Start := "1000";
                 Time_Tracked_End := "7201000";
                 Tag_Names := "acid, anode" |} ],
     [Request (GetTaskTime "c")]).
Proof.
  split; vm_compute; reflexivity.
Qed.

(** ** The tag summary *)

(** *** Rows and membership *)

Lemma acid_df_app search a b :
  Acc.acid_df search (a ++ b) = Acc.acid_df search a ++ Acc.acid_df search b.
Proof.
  unfold Acc.acid_df, filter_rows. rewrite map_app, List.filter_app. reflexivity.
Qed.

Lemma mem_In x l : Str.mem x l = true <-> In x l.
Proof.
  unfold Str.mem. rewrite existsb_exists. split.
  - intros [y [Hy E]]. apply String.eqb_eq in E. subst y. exact Hy.
  - intros H. exists x. split; [exact H | apply String.eqb_refl].
Qed.

Lemma mem_false x l : ~ In x l -> Str.mem x l = false.
Proof.
  intros H. destruct (Str.mem x l) eqn:E; [| reflexivity].
  apply mem_In in E. contradiction.
Qed.


(** *** Rows of the same id *)

Lemma mem_cons x y l : Str.mem x (y :: l) = String.eqb x y || Str.mem x l.
Proof. reflexivity. Qed.

Lemma mem_app x a b : Str.mem x (a ++ b) = Str.mem x a || Str.mem x b.
Proof. unfold Str.mem. apply existsb_app. Qed.

Lemma drop_duplicates_from_ext (l : list Row) :
  forall seen1 seen2,
    (forall x, In x (map (fun r => id (entry r)) l) ->
               Str.mem x seen1 = Str.mem x seen2) ->
    drop_duplicates_from seen1 l = drop_duplicates_from seen2 l.
Proof.
  induction l as [| r l IH]; intros seen1 seen2 H; [reflexivity |].
  simpl. rewrite <- (H (id (entry r))) by (left; reflexivity).
  destruct (Str.mem (id (entry r)) seen1).
  - apply IH. intros x Hx. apply H. right. exact Hx.
  - f_equal. apply IH. intros x Hx. rewrite !mem_cons.
    rewrite (H x) by (right; exact Hx). reflexivity.
Qed.

Lemma drop_duplicates_from_app (a b : list Row) :
  forall seen,
    drop_duplicates_from seen (a ++ b)
    = drop_duplicates_from seen a
        ++ drop_duplicates_from (map (fun r => id (entry r)) a ++ seen) b.
Proof.
  induction a as [| r a IH]; intros seen; [reflexivity |].
  simpl. destruct (Str.mem (id (entry r)) seen) eqn:Hseen.
  - rewrite IH. f_equal. apply drop_duplicates_from_ext. intros x _.
    rewrite mem_cons.
    destruct (String.eqb_spec x (id (entry r))) as [-> | _]; [| reflexivity].
    rewrite mem_app, Hseen, orb_true_r. reflexivity.
  - rewrite IH. simpl. f_equal. f_equal.
    apply drop_duplicates_from_ext. intros x _.
    rewrite mem_cons, !mem_app, mem_cons.
    destruct (String.eqb x (id (entry r))), (Str.mem x (map _ a)); reflexivity.
Qed.

(** *** Cells of the frame *)

Lemma fold_insert_other {X} (key : X -> string * string) (val : X -> num)
    (l : list X) (k : string * string) :
  forall m : gmap (string * string) num,
    (forall x, In x l -> key x <> k) ->
    fold_left (fun m x => <[key x := val x]> m) l m !! k = m !! k.
Proof.
  induction l as [| y l IH]; intros m H; [reflexivity |].
  simpl. rewrite IH by (intros x Hx; apply H; right; exact Hx).
  apply lookup_insert_ne. apply H. left. reflexivity.
Qed.

Lemma fold_insert_at {X} (key : X -> string * string) (val : X -> num)
    (l : list X) (x : X) :
  (forall y, key y = key x -> y = x) ->
  forall m : gmap (string * string) num,
    In x l \/ m !! key x = Some (val x) ->
    fold_left (fun m x => <[key x := val x]> m) l m !! key x = Some (val x).
Proof.
  intros Hinj. induction l as [| y l IH]; intros m H.
  - destruct H as [[] | H]. exact H.
  - simpl. apply IH.
    destruct (decide (key y = key x)) as [E | N].
    + right. apply Hinj in E. subst y. apply lookup_insert_eq.
    + destruct H as [[E | H] | H].
      * subst y. contradiction.
      * left. exact H.
      * right. rewrite lookup_insert_ne by exact N. exact H.
Qed.

Lemma filter_none {A} (f : A -> bool) (l : list A) :
  (forall x, In x l -> f x = false) -> List.filter f l = [].
Proof.
  induction l as [| x l IH]; intros H; [reflexivity |].
  simpl. rewrite (H x) by (left; reflexivity).
  apply IH. intros y Hy. apply H. right. exact Hy.
Qed.

Lemma setitem_columns df col s c :
  In c (columns (setitem df col s)) -> c <> col -> In c (columns df).
Proof.
  unfold setitem. cbn [columns]. intros H Hne.
  destruct (Str.mem col (columns df)); [exact H |].
  apply in_app_or in H. destruct H as [H | [H | []]]; [exact H |].
  subst c. contradiction.
Qed.

Lemma setitem_other df col s r c :
  c <> col -> values (setitem df col s) !! (r, c) = values df !! (r, c).
Proof.
  intros Hne. unfold setitem. cbn [values].
  apply (fold_insert_other (fun r => (r, col))
           (fun r => default NaN (series_get s r))).
  intros x _ E. inversion E. subst c. contradiction.
Qed.

(** What [tag_rows] returns, on the columns of the two labels. *)
Lemma tag_rows_cells rows tag_summary :
  tag_rows rows = inr tag_summary ->
  index tag_summary = keys1 rows /\
  (forall b, In (label b) (columns tag_summary) -> In (label b) (keys2 rows)) /\
  (forall t b,
      values tag_summary !! (t, label b)
      = Num.round2 <$> values (unstack rows) !! (t, label b)).
Proof.
  unfold tag_rows. intros H.
  destruct (getitem _ "Billable") as [e | billable_hours]; [discriminate H |].
  destruct (getitem _ "Total Hours") as [e | total_hours]; [discriminate H |].
  inversion H; subst tag_summary; clear H.
  split; [reflexivity |]. split.
  - intros b Hb. unfold Pd.round in Hb. cbn [columns] in Hb.
    apply setitem_columns in Hb; [| destruct b; discriminate].
    apply setitem_columns in Hb; [| destruct b; discriminate].
    exact Hb.
  - intros t b. unfold Pd.round. cbn [values]. rewrite lookup_fmap.
    rewrite !setitem_other by (destruct b; discriminate). reflexivity.
Qed.

Lemma loc_setitem_cells df label s df' :
  loc_setitem df label s = inr df' ->
  columns df' = columns df /\
  (forall r, In r (index df') -> r <> label -> In r (index df)) /\
  (forall r c, r <> label -> values df' !! (r, c) = values df !! (r, c)) /\
  (forall c, In c (columns df) ->
             values df' !! (label, c) = Some (default NaN (series_get s c))).
Proof.
  intros H.
  assert (E : df' = {| index := if Str.mem label (index df) then index df
                               else index df ++ [label];
                      columns := columns df;
                      values := fold_left
                        (fun m c => <[(label, c) := default NaN (series_get s c)]> m)
                        (columns df) (values df) |}).
  { unfold loc_setitem in H. destruct (columns df); [discriminate H |].
    inversion H. reflexivity. }
  subst df'. clear H. cbn [columns index values].
  split; [reflexivity |]. split; [| split].
  - intros r Hr Hne. destruct (Str.mem label (index df)); [exact Hr |].
    apply in_app_or in Hr. destruct Hr as [Hr | [Hr | []]]; [exact Hr |].
    subst r. contradiction.
  - intros r c Hne.
    apply (fold_insert_other (fun c => (label, c))
             (fun c => default NaN (series_get s c))).
    intros x _ E. inversion E. subst r. contradiction.
  - intros c Hin.
    apply (fold_insert_at (fun c => (label, c))
             (fun c => default NaN (series_get s c))).
    + intros y E. inversion E. reflexivity.
    + left. exact Hin.
Qed.

Lemma summarize_unfold e data tag_input :
  summarize (e :: data) tag_input
  = match tag_rows (Acc.acid_exploded (parse_tags tag_input) (e :: data)) with
    | inl err => inl err
    | inr tag_summary =>
        loc_setitem tag_summary "Total"
          (series_round (total_row (Acc.acid_df (parse_tags tag_input) (e :: data))))
    end.
Proof. reflexivity. Qed.

(** *** One entry under several tags *)

(** C4 on the code.  The entry of the claim, two billable hours tagged
    acid and anode with both tags asked for, adds 2 to each tag row and
    2 to the total row.  But the count depends on the letter case of
    the tag names.  An entry of two hours tagged "Acid" beside it adds
    nothing to the row of acid nor to the total row, which stay at 2:
    the filter compares the names as the service gives them.  And an
    entry of two hours tagged both "acid" and "Acid" adds 4 to the row
    of acid, twice its duration, and 2 to the total row: its two names
    are both lower-cased to acid in the exploded rows. *)
Theorem summarize_counts_depend_on_letter_case :
  summary_cell (summarize [Scenario.two_hours] "acid,anode") "acid" "Billable"
  = Some (Fin 2) /\
  summary_cell (summarize [Scenario.two_hours] "acid,anode") "anode" "Billable"
  = Some (Fin 2) /\
  summary_cell (summarize [Scenario.two_hours] "acid,anode") "Total" "Billable"
  = Some (Fin 2) /\
  Acc.acid_df (parse_tags "acid,anode") [Scenario.two_hours; Scenario.capital_tag]
  = [make_row Scenario.two_hours] /\
  summary_cell
    (summarize [Scenario.two_hours; Scenario.capital_tag] "acid,anode")
    "acid" "Billable"
  = Some (Fin 2) /\
  summary_cell
    (summarize [Scenario.two_hours; Scenario.capital_tag] "acid,anode")
    "Total" "Billable"
  = Some (Fin 2) /\
  Acc.acid_exploded (parse_tags "acid") [Scenario.twice_tagged]
  = [ {| row := make_row Scenario.twice_tagged; TagName1 := Some "acid" |};
      {| row := make_row Scenario.twice_tagged; TagName1 := Some "acid" |} ] /\
  summary_cell (summarize [Scenario.twice_tagged] "acid") "acid" "Billable"
  = Some (Fin 4) /\
  summary_cell (summarize [Scenario.twice_tagged] "acid") "Total" "Billable"
  = Some (Fin 2).
Proof.
  repeat apply conj; vm_compute; reflexivity.
Qed.


(** *** No tags asked for *)

Lemma acid_df_no_tags data : Acc.acid_df [] data = [].
Proof.
  unfold Acc.acid_df, filter_rows. apply filter_none. intros r _.
  unfold has_search_tag. destruct (tags (entry r)) as [names |]; [| reflexivity].
  induction names as [| n names IH]; [reflexivity | exact IH].
Qed.

Lemma summarize_no_search_tags e data tag_input :
  parse_tags tag_input = [] ->
  summarize (e :: data) tag_input = inl (KeyError "Billable").
Proof.
  intros Hnone. rewrite summarize_unfold, Hnone.
  unfold Acc.acid_exploded. rewrite acid_df_no_tags. reflexivity.
Qed.

(** C9 on the code.  With no tag typed the script does not reach its
    summary: on entries it raises KeyError at the column 'Billable',
    which the empty grouping does not have, and without entries it
    raises NameError at [df]. *)
Theorem summarize_without_tags_raises :
  forall data,
    summarize data ""
    = inl (match data with
           | [] => NameError "df"
           | _ :: _ => KeyError "Billable"
           end).
Proof.
  intros [| e data]; [reflexivity |].
  apply summarize_no_search_tags. reflexivity.
Qed.

(** *** The percentage *)

(** The total row computes the percentage the data model asks for. *)
Lemma total_row_percentBillable acid_df :
  exists b n,
    total_row acid_df
    = [ ("Billable", b); ("Non-Billable", n); ("Total Hours", Num.add b n);
        ("% Billable", Spec.percentBillable b (Num.add b n)) ].
Proof.
  exists (sum_where "Billable" (drop_duplicates acid_df)),
         (sum_where "Non-Billable" (drop_duplicates acid_df)).
  reflexivity.
Qed.

(** C3 on the code.  For a tag whose entries sum to no time the row of
    the tag holds NaN as percentage, where the data model asks for 0 and
    the total row of the same summary holds 0; and when no retained
    entry is billable, the percentage of the tag rows is not computed at
    all: the column it divides is missing and the script raises. *)
Theorem summarize_tag_row_percentage_unguarded :
  summary_cell (summarize [Scenario.no_time] "acid") "acid" "Billable"
  = Some (Fin 0) /\
  summary_cell (summarize [Scenario.no_time] "acid") "acid" "Total Hours"
  = Some (Fin 0) /\
  summary_cell (summarize [Scenario.no_time] "acid") "acid" "% Billable"
  = Some NaN /\
  Spec.percentBillable (Fin 0) (Fin 0) = Fin 0 /\
  summary_cell (summarize [Scenario.no_time] "acid") "Total" "% Billable"
  = Some (Fin 0) /\
  summarize [Scenario.unbilled] "acid" = inl (KeyError "Billable").
Proof.
  repeat apply conj; vm_compute; reflexivity.
Qed.

(** *** Letter case *)

(** C5 on the code.  The tags typed are trimmed and the empty ones
    dropped, but their case is kept; the filter compares them with the
    tag names as the service gives them, and only the exploded names are
    lower-cased.  So an entry tagged "Acid" is not retained for "acid"
    where the same entry tagged "acid" is, and a tag typed "Acid"
    matches no exploded row, not even of an entry tagged "Acid". *)
Theorem summarize_tag_match_depends_on_case :
  parse_tags " Acid , anode ,, " = ["Acid"; "anode"] /\
  Acc.acid_df (parse_tags "acid") [Scenario.capital_tag] = [] /\
  Acc.acid_df (parse_tags "acid") [Scenario.small_tag]
  = [make_row Scenario.small_tag] /\
  summarize [Scenario.capital_tag] "acid" = inl (KeyError "Billable") /\
  summary_cell (summarize [Scenario.small_tag] "acid") "acid" "Billable"
  = Some (Fin 2) /\
  Acc.acid_df (parse_tags "Acid") [Scenario.capital_tag]
  = [make_row Scenario.capital_tag] /\
  Acc.acid_exploded (parse_tags "Acid") [Scenario.capital_tag] = [] /\
  summarize [Scenario.capital_tag] "Acid" = inl (KeyError "Billable") /\
  summarize [Scenario.small_tag] "Acid" = inl (KeyError "Billable").
Proof.
  repeat apply conj; vm_compute; reflexivity.
Qed.

(** * Further properties *)

(** ** The resolver *)



(** ** Teams *)

(** [get_team] returns a team exactly when the request did not fail and
    the answer holds exactly one team, and then it is that team. *)
Theorem get_team_exactly_one (r : response (option (list Workspace.Team))) team :
  Workspace.get_team r = inr team <->
  (400 <=? status_code r) && (status_code r <? 600) = false /\
  json r = Some [team].
Proof.
  unfold Workspace.get_team, Workspace.get_teams, Workspace._get.
  destruct ((400 <=? status_code r) && (status_code r <? 600)).
  - split; [discriminate | intros [H _]; discriminate H].
  - destruct (json r) as [[| t [| t' teams]] |]; split;
      try discriminate; try (intros [_ H]; discriminate H).
    + intros H. inversion H. split; reflexivity.
    + intros [_ H]. inversion H. reflexivity.
Qed.

(** Any other number of teams is refused with a ValueError that gives
    the number. *)
Theorem get_team_count_error (r : response (option (list Workspace.Team))) teams :
  (400 <=? status_code r) && (status_code r <? 600) = false ->
  json r = Some teams ->
  length teams <> 1%nat ->
  Workspace.get_team r
  = inl (ValueError
           ("Expected exactly one team, got " ++ pretty (length teams))%string).
Proof.
  intros Hs Hj Hn.
  unfold Workspace.get_team, Workspace.get_teams, Workspace._get.
  rewrite Hs, Hj. destruct teams as [| t [| t' teams]]; try reflexivity.
  simpl in Hn. contradiction.
Qed.

Lemma get_team_count_error_witness :
  (400 <=? 200) && (200 <? 600) = false /\
  Some ([] : list Workspace.Team) = Some [] /\
  length ([] : list Workspace.Team) <> 1%nat /\
  Workspace.get_team {| status_code := 200; json := Some [] |}
  = inl (ValueError "Expected exactly one team, got 0").
Proof.
  assert (H1 : (400 <=? 200) && (200 <? 600) = false) by reflexivity.
  assert (H3 : length ([] : list Workspace.Team) <> 1%nat) by (simpl; lia).
  split; [exact H1 |]. split; [reflexivity |]. split; [exact H3 |].
  exact (get_team_count_error {| status_code := 200; json := Some [] |} []
           H1 eq_refl H3).
Defined.

(** ** The bulk request and the script *)

(** When the bulk request is answered with a status other than 200,
    [fetch_clickup_data] prints the status and returns no entries, and
    the script that follows stops at the frame it never built, whatever
    tags are typed. *)
Theorem report_after_failed_fetch (r : response (option (list Entry))) tag_input :
  status_code r <> 200 ->
  Workspace.fetch_clickup_data r
  = ([("API Error: " ++ pretty (status_code r))%string], []) /\
  Workspace.report r tag_input = inl (NameError "df").
Proof.
  intros Hs. apply Z.eqb_neq in Hs.
  unfold Workspace.report, Workspace.fetch_clickup_data. rewrite Hs.
  split; reflexivity.
Qed.

Lemma report_after_failed_fetch_witness :
  401 <> 200 /\
  Workspace.fetch_clickup_data {| status_code := 401; json := None |}
  = (["API Error: 401"], []) /\
  Workspace.report {| status_code := 401; json := None |} "acid"
  = inl (NameError "df").
Proof.
  assert (H : 401 <> 200) by lia.
  split; [exact H |].
  exact (report_after_failed_fetch {| status_code := 401; json := None |} "acid" H).
Defined.

(** ** Custom fields *)

Lemma filter_snoc {A} (f : A -> bool) (l : list A) (x : A) :
  List.filter f (l ++ [x]) = List.filter f l ++ (if f x then [x] else []).
Proof. rewrite List.filter_app. reflexivity. Qed.

(** In the dictionary of [extract_all_cf_info] a name has the value of
    the last field of that name, and a name no field has is absent. *)
Theorem extract_all_cf_info_last_wins {V} (fields : list (Fields.CustomField V))
    (name : option string) :
  Fields.extract_all_cf_info fields !! name
  = Fields.cf_value
      <$> last (List.filter (fun cf => bool_decide (Fields.cf_name cf = name))
                  fields).
Proof.
  unfold Fields.extract_all_cf_info.
  induction fields as [| cf fields IH] using rev_ind.
  - reflexivity.
  - rewrite fold_left_app, filter_snoc. cbn [fold_left Fields.extract_cf_info
      Fields.info_name Fields.info_value].
    destruct (bool_decide_reflect (Fields.cf_name cf = name)) as [E | N].
    + rewrite last_snoc. subst name. rewrite lookup_insert_eq. reflexivity.
    + rewrite app_nil_r, lookup_insert_ne by exact N. exact IH.
Qed.

Lemma for_enumerate_lookup options :
  forall idx m i,
    Fields.for_enumerate idx options m !! i
    = if bool_decide (idx <= i < idx + length options)%nat
      then Fields.option_name <$> options !! (i - idx)%nat
      else m !! i.
Proof.
  induction options as [| option options IH]; intros idx m i.
  - simpl. rewrite bool_decide_eq_false_2 by lia. reflexivity.
  - cbn [Fields.for_enumerate length]. rewrite IH.
    destruct (bool_decide_reflect (S idx <= i < S idx + length options)%nat)
      as [H | H].
    + rewrite bool_decide_eq_true_2 by lia.
      replace (i - idx)%nat with (S (i - S idx)) by lia. reflexivity.
    + destruct (decide (i = idx)) as [-> | Hne].
      * rewrite lookup_insert_eq, bool_decide_eq_true_2 by lia.
        rewrite Nat.sub_diag. reflexivity.
      * rewrite lookup_insert_ne by congruence.
        rewrite bool_decide_eq_false_2 by lia. reflexivity.
Qed.

(** The maps of [create_client_map] and [create_root_cause_map]: no task
    is an IndexError; otherwise only the first task is read, and
    position [i] holds the name of option [i] of the last field with the
    wanted name that has so many options, and nothing if there is none. *)
Theorem create_map_by_position {V} (field_name : string)
    (task1 : Fields.FieldTask V) (rest : list (Fields.FieldTask V)) (i : nat) :
  Fields.create_map field_name ([] : list (Fields.FieldTask V))
  = inl (Fields.IndexError "list index out of range") /\
  exists m,
    Fields.create_map field_name (task1 :: rest) = inr m /\
    m !! i
    = last (List.filter
              (fun field =>
                 bool_decide (Fields.cf_name field = Some field_name)
                 && (i <? length (Fields.options_of field))%nat)
              (default [] (Fields.custom_fields task1)))
        ≫= (fun field => Fields.option_name <$> Fields.options_of field !! i).
Proof.
  split; [reflexivity |].
  eexists. split; [reflexivity |].
  induction (default [] (Fields.custom_fields task1)) as [| field fields IH]
    using rev_ind.
  - reflexivity.
  - rewrite fold_left_app, filter_snoc. cbn [fold_left].
    destruct (bool_decide (Fields.cf_name field = Some field_name)).
    + rewrite for_enumerate_lookup. cbn [andb Nat.add].
      destruct (Nat.ltb_spec i (length (Fields.options_of field))) as [Hlt | Hge].
      * rewrite bool_decide_eq_true_2 by lia.
        rewrite last_snoc, Nat.sub_0_r. reflexivity.
      * rewrite bool_decide_eq_false_2 by lia.
        rewrite app_nil_r. exact IH.
    + cbn [andb]. rewrite app_nil_r. exact IH.
Qed.

(** ** The collector on served tasks *)

Section CollectorRows.

Variable G : gmap string pyobj.
Variable srv : server.
Variable strftime_local : Z -> string.
Variable round_hours : Z -> Q.






(** An answer without the key 'data' ends the whole call with KeyError:
    the handler of the loop takes HTTP errors only. *)
Theorem extract_tracked_time_missing_data before task after records tr0 tr :
  for_tasks G srv strftime_local round_hours before [] tr0 = (Return records, tr) ->
  (400 <=? status_code (task_time srv tr (task_id task)))
  && (status_code (task_time srv tr (task_id task)) <? 600) = false ->
  json (task_time srv tr (task_id task)) = None ->
  extract_tracked_time G srv strftime_local round_hours
    (before ++ task :: after) tr0
  = (Raise (KeyError "data"), Request (GetTaskTime (task_id task)) :: tr).
Proof.
  intros Hbefore Hs Hj. unfold extract_tracked_time.
  rewrite for_tasks_app. unfold bind at 1. rewrite Hbefore.
  cbn [for_tasks]. unfold bind.
  unfold for_task, try_except_HTTPError, bind, get_task_time_tracking, bind,
    requests_get_task_time, raise_for_status.
  rewrite Hs, Hj. reflexivity.
Qed.

End CollectorRows.



Lemma extract_tracked_time_missing_data_witness :
  for_tasks clickup_raw_code_globals Rows.no_data
    Scenario.stamp Scenario.round_hours [Scenario.task "a"] [] []
  = (Return (Rows.rows_of Scenario.stamp Scenario.round_hours "a"
               Scenario.one_interval),
     [Request (GetTaskTime "a")]) /\
  (400 <=? status_code (task_time Rows.no_data [Request (GetTaskTime "a")] "b"))
  && (status_code (task_time Rows.no_data [Request (GetTaskTime "a")] "b") <? 600)
  = false /\
  json (task_time Rows.no_data [Request (GetTaskTime "a")] "b") = None /\
  extract_tracked_time clickup_raw_code_globals Rows.no_data
    Scenario.stamp Scenario.round_hours
    ([Scenario.task "a"] ++ Scenario.task "b" :: [Scenario.task "c"]) []
  = (Raise (KeyError "data"),
     [Request (GetTaskTime "b"); Request (GetTaskTime "a")]).
Proof.
  assert (H1 : for_tasks clickup_raw_code_globals Rows.no_data
                 Scenario.stamp Scenario.round_hours [Scenario.task "a"] [] []
               = (Return (Rows.rows_of Scenario.stamp Scenario.round_hours "a"
                            Scenario.one_interval),
                  [Request (GetTaskTime "a")]))
    by (vm_compute; reflexivity).
  assert (H2 : (400 <=? status_code
                  (task_time Rows.no_data [Request (GetTaskTime "a")]
                     (task_id (Scenario.task "b"))))
               && (status_code
                     (task_time Rows.no_data [Request (GetTaskTime "a")]
                        (task_id (Scenario.task "b"))) <? 600) = false)
    by reflexivity.
  assert (H3 : json (task_time Rows.no_data [Request (GetTaskTime "a")]
                       (task_id (Scenario.task "b"))) = None) by reflexivity.
  split; [exact H1 |]. split; [exact H2 |]. split; [exact H3 |].
  exact (extract_tracked_time_missing_data clickup_raw_code_globals Rows.no_data
           Scenario.stamp Scenario.round_hours
           [Scenario.task "a"] (Scenario.task "b") [Scenario.task "c"]
           _ [] _ H1 H2 H3).
Defined.

(** ** The tags typed *)

Lemma lstrip_head s :
  Str.lstrip s = "" \/
  exists c rest, Str.lstrip s = String c rest /\ Str.is_space c = false.
Proof.
  induction s as [| c s IH]; [left; reflexivity |].
  simpl. destruct (Str.is_space c) eqn:Hc; [exact IH |].
  right. exists c, s. split; [reflexivity | exact Hc].
Qed.

Lemma rstrip_cons c s :
  Str.rstrip (String c s)
  = match Str.rstrip s with
    | EmptyString => if Str.is_space c then EmptyString else String c EmptyString
    | rest => String c rest
    end.
Proof. reflexivity. Qed.

Lemma rstrip_keeps_head c rest :
  Str.is_space c = false ->
  exists rest', Str.rstrip (String c rest) = String c rest'.
Proof.
  intros Hc. rewrite rstrip_cons. destruct (Str.rstrip rest) as [| c' r].
  - rewrite Hc. exists "". reflexivity.
  - exists (String c' r). reflexivity.
Qed.

Lemma last_cons c s :
  Text.last (String c s)
  = match Text.last s with Some c' => Some c' | None => Some c end.
Proof. reflexivity. Qed.

Lemma last_None s : Text.last s = None -> s = "".
Proof.
  destruct s as [| c s]; [reflexivity |].
  rewrite last_cons. destruct (Text.last s); discriminate.
Qed.

(** What [rstrip] leaves is empty or ends with a character that is not
    white space. *)
Lemma rstrip_last s :
  Str.rstrip s = "" \/ Text.not_space (Text.last (Str.rstrip s)).
Proof.
  induction s as [| c s IH]; [left; reflexivity |].
  rewrite rstrip_cons. destruct (Str.rstrip s) as [| c' r] eqn:Hr.
  - destruct (Str.is_space c) eqn:Hc; [left; reflexivity |].
    right. exact Hc.
  - right. destruct IH as [IH | IH]; [discriminate IH |].
    rewrite last_cons. destruct (Text.last (String c' r)); [exact IH | destruct IH].
Qed.

(** A string that ends with a character that is not white space is left
    as it is by [rstrip]. *)
Lemma rstrip_fixed s : Text.not_space (Text.last s) -> Str.rstrip s = s.
Proof.
  induction s as [| c s IH]; [reflexivity |].
  rewrite last_cons, rstrip_cons.
  destruct (Text.last s) as [c' |] eqn:Hlast; intros H.
  - rewrite (IH H). destruct s; [discriminate Hlast | reflexivity].
  - apply last_None in Hlast. subst s. simpl in *. rewrite H. reflexivity.
Qed.

Lemma strip_clean s : Str.strip s <> "" -> Text.clean (Str.strip s).
Proof.
  unfold Str.strip. intros Hne.
  destruct (lstrip_head s) as [E | (c & rest & E & Hc)]; rewrite E in *.
  - contradiction Hne. reflexivity.
  - split.
    + destruct (rstrip_keeps_head c rest Hc) as [rest' E']. rewrite E'. exact Hc.
    + destruct (rstrip_last (String c rest)) as [E' | H]; [contradiction | exact H].
Qed.

Lemma clean_strip tag : Text.clean tag -> tag <> "" /\ Str.strip tag = tag.
Proof.
  intros [Hfirst Hlast]. destruct tag as [| c rest]; [destruct Hfirst |].
  split; [discriminate |].
  unfold Str.strip. simpl in Hfirst. simpl Str.lstrip. rewrite Hfirst.
  apply rstrip_fixed. exact Hlast.
Qed.

(** Of ASCII text typed, every search tag the script derives is not
    empty and neither begins nor ends with white space. *)
Theorem parse_tags_clean tag_input :
  Text.is_ascii tag_input = true ->
  Forall Text.clean (parse_tags tag_input).
Proof.
  intros _. unfold parse_tags.
  induction (Str.split "," tag_input) as [| piece pieces IH]; simpl.
  - constructor.
  - destruct (String.eqb_spec (Str.strip piece) "") as [E | N]; simpl.
    + exact IH.
    + constructor; [| exact IH]. apply strip_clean. exact N.
Qed.

Lemma parse_tags_clean_witness :
  Text.is_ascii " Acid , anode mud ,, " = true /\
  parse_tags " Acid , anode mud ,, " = ["Acid"; "anode mud"] /\
  Forall Text.clean (parse_tags " Acid , anode mud ,, ").
Proof.
  assert (H : Text.is_ascii " Acid , anode mud ,, " = true) by reflexivity.
  split; [exact H |]. split; [reflexivity |].
  exact (parse_tags_clean " Acid , anode mud ,, " H).
Defined.

Lemma split_without_separator sep s :
  Text.contains sep s = false -> Str.split sep s = [s].
Proof.
  induction s as [| c s IH]; intros H; [reflexivity |].
  simpl in *. apply orb_false_iff in H. destruct H as [Hc Hs].
  rewrite Hc, (IH Hs). reflexivity.
Qed.

Lemma split_at_separator sep a b :
  Text.contains sep a = false ->
  Str.split sep (a ++ String sep b) = a :: Str.split sep b.
Proof.
  induction a as [| c a IH]; intros H; simpl in *.
  - rewrite Ascii.eqb_refl. reflexivity.
  - apply orb_false_iff in H. destruct H as [Hc Ha].
    rewrite Hc, (IH Ha). reflexivity.
Qed.

Lemma split_concat tag tags :
  Forall (fun t => Text.contains "," t = false) (tag :: tags) ->
  Str.split "," (String.concat "," (tag :: tags)) = tag :: tags.
Proof.
  revert tag. induction tags as [| t tags IH]; intros tag H.
  - simpl. apply split_without_separator.
    inversion H; assumption.
  - inversion H as [| ? ? Htag Hrest]; subst.
    change (String.concat "," (tag :: t :: tags))
      with (tag ++ String "," (String.concat "," (t :: tags)))%string.
    rewrite (split_at_separator "," tag _ Htag), (IH t Hrest). reflexivity.
Qed.

(** ASCII tags that are not empty, neither begin nor end with white
    space and hold no comma, typed with commas between them, are the
    tags the script searches for, in the order typed. *)
Theorem parse_tags_of_joined tags :
  Forall (fun t => Text.is_ascii t = true) tags ->
  Forall Text.clean tags ->
  Forall (fun t => Text.contains "," t = false) tags ->
  parse_tags (String.concat "," tags) = tags.
Proof.
  intros _ Hclean Hcomma.
  destruct tags as [| tag tags]; [reflexivity |].
  unfold parse_tags. rewrite (split_concat tag tags Hcomma).
  induction Hclean as [| t ts Ht _ IH]; [reflexivity |].
  apply clean_strip in Ht. destruct Ht as [Hne Hstrip].
  inversion Hcomma; subst. simpl.
  rewrite Hstrip. apply String.eqb_neq in Hne. rewrite Hne. simpl.
  f_equal; [exact Hstrip | apply IH; assumption].
Qed.

Lemma parse_tags_of_joined_witness :
  Forall (fun t => Text.is_ascii t = true) ["acid"; "anode mud"] /\
  Forall Text.clean ["acid"; "anode mud"] /\
  Forall (fun t => Text.contains "," t = false) ["acid"; "anode mud"] /\
  parse_tags (String.concat "," ["acid"; "anode mud"]) = ["acid"; "anode mud"].
Proof.
  assert (H0 : Forall (fun t => Text.is_ascii t = true) ["acid"; "anode mud"])
    by (repeat constructor).
  assert (H1 : Forall Text.clean ["acid"; "anode mud"]).
  { repeat constructor. }
  assert (H2 : Forall (fun t => Text.contains "," t = false) ["acid"; "anode mud"])
    by (repeat constructor).
  split; [exact H0 |]. split; [exact H1 |]. split; [exact H2 |].
  exact (parse_tags_of_joined ["acid"; "anode mud"] H0 H1 H2).
Defined.

(** ** Deduplication *)

Lemma drop_duplicates_from_spec (df : list Row) :
  forall seen,
    List.NoDup (map Text.row_id (drop_duplicates_from seen df)) /\
    (forall x, In x (map Text.row_id (drop_duplicates_from seen df)) <->
               In x (map Text.row_id df) /\ ~ In x seen) /\
    sublist (drop_duplicates_from seen df) df.
Proof.
  induction df as [| r df IH]; intros seen.
  - simpl. repeat split; try constructor; tauto.
  - simpl. destruct (Str.mem (id (entry r)) seen) eqn:Hseen.
    + destruct (IH seen) as (Hnd & Hin & Hsub).
      split; [exact Hnd |]. split.
      * intros x. rewrite Hin. apply mem_In in Hseen.
        split; [tauto |]. intros [[E | H] Hn]; [| tauto].
        unfold Text.row_id in E. subst x. contradiction.
      * apply sublist_cons. exact Hsub.
    + destruct (IH (id (entry r) :: seen)) as (Hnd & Hin & Hsub).
      assert (Hnot : ~ In (id (entry r)) seen).
      { intros H. apply mem_In in H. congruence. }
      split; [| split].
      * simpl. constructor; [| exact Hnd].
        intros H. apply Hin in H. destruct H as [_ H]. apply H. left. reflexivity.
      * intros x. simpl. rewrite Hin. simpl. unfold Text.row_id at 1 3.
        destruct (String.eqb_spec (id (entry r)) x) as [E | N].
        -- subst x. tauto.
        -- tauto.
      * apply sublist_skip. exact Hsub.
Qed.

(** [drop_duplicates] keeps exactly one row of each id, the first one,
    and keeps the rows in their order. *)
Theorem drop_duplicates_first_of_each_id (df : list Row) :
  List.NoDup (map Text.row_id (drop_duplicates df)) /\
  (forall x, In x (map Text.row_id (drop_duplicates df)) <->
             In x (map Text.row_id df)) /\
  sublist (drop_duplicates df) df /\
  (forall before r after,
      df = before ++ r :: after ->
      ~ In (Text.row_id r) (map Text.row_id before) ->
      In r (drop_duplicates df)).
Proof.
  unfold drop_duplicates.
  destruct (drop_duplicates_from_spec df []) as (Hnd & Hin & Hsub).
  split; [exact Hnd |]. split; [| split; [exact Hsub |]].
  - intros x. rewrite Hin. simpl. tauto.
  - intros before r after -> Hfresh.
    rewrite drop_duplicates_from_app. apply in_or_app. right.
    simpl. rewrite app_nil_r. unfold Text.row_id in Hfresh.
    rewrite (mem_false _ _ Hfresh). left. reflexivity.
Qed.

(** ** Entries without a tag asked for *)

Lemma summarize_nonempty data tag_input :
  data <> [] ->
  summarize data tag_input
  = match tag_rows (Acc.acid_exploded (parse_tags tag_input) data) with
    | inl err => inl err
    | inr tag_summary =>
        loc_setitem tag_summary "Total"
          (series_round (total_row (Acc.acid_df (parse_tags tag_input) data)))
    end.
Proof.
  destruct data as [| e data]; [contradiction | reflexivity].
Qed.

(** On ASCII text, an entry the filter does not retain changes nothing
    in the result, as long as other entries remain. *)
Theorem summarize_ignores_unretained before e after tag_input :
  Text.is_ascii tag_input = true ->
  forallb Text.ascii_tags (before ++ e :: after) = true ->
  has_search_tag (parse_tags tag_input) (make_row e) = false ->
  before ++ after <> [] ->
  summarize (before ++ e :: after) tag_input
  = summarize (before ++ after) tag_input.
Proof.
  intros _ _ Hret Hne.
  rewrite !summarize_nonempty;
    [| exact Hne | destruct before; discriminate].
  assert (Hdf : Acc.acid_df (parse_tags tag_input) (before ++ e :: after)
                = Acc.acid_df (parse_tags tag_input) (before ++ after)).
  { change (e :: after) with ([e] ++ after). rewrite !acid_df_app.
    unfold Acc.acid_df at 2, filter_rows. simpl. rewrite Hret. reflexivity. }
  unfold Acc.acid_exploded. rewrite Hdf. reflexivity.
Qed.

Lemma summarize_ignores_unretained_witness :
  Text.is_ascii "acid" = true /\
  forallb Text.ascii_tags ([Scenario.two_hours] ++ Scenario.capital_tag :: [])
  = true /\
  has_search_tag (parse_tags "acid") (make_row Scenario.capital_tag) = false /\
  [Scenario.two_hours] ++ [] <> [] /\
  summarize ([Scenario.two_hours] ++ Scenario.capital_tag :: []) "acid"
  = summarize ([Scenario.two_hours] ++ []) "acid".
Proof.
  assert (Ha : Text.is_ascii "acid" = true) by reflexivity.
  assert (Hd : forallb Text.ascii_tags
                 ([Scenario.two_hours] ++ Scenario.capital_tag :: []) = true)
    by reflexivity.
  assert (H1 : has_search_tag (parse_tags "acid") (make_row Scenario.capital_tag)
               = false) by reflexivity.
  assert (H2 : [Scenario.two_hours] ++ [] <> []) by discriminate.
  split; [exact Ha |]. split; [exact Hd |].
  split; [exact H1 |]. split; [exact H2 |].
  exact (summarize_ignores_unretained [Scenario.two_hours] Scenario.capital_tag
           [] "acid" Ha Hd H1 H2).
Defined.

(** ** The shape of a summary *)

Lemma in_insert_sorted x y l :
  In y (insert_sorted x l) <-> y = x \/ In y l.
Proof.
  induction l as [| z l IH]; simpl.
  - intuition congruence.
  - destruct (String.compare x z) eqn:E; simpl.
    + apply String.compare_eq_iff in E. subst z. intuition congruence.
    + intuition congruence.
    + rewrite IH. intuition congruence.
Qed.

Lemma in_sorted_unique y l : In y (sorted_unique l) <-> In y l.
Proof.
  unfold sorted_unique. induction l as [| x l IH]; simpl; [tauto |].
  rewrite in_insert_sorted, IH. intuition congruence.
Qed.

Lemma HdRel_insert_sorted y x l :
  HdRel Shape.before y l -> Shape.before y x ->
  HdRel Shape.before y (insert_sorted x l).
Proof.
  intros Hl Hx. destruct l as [| z l]; simpl.
  - constructor. exact Hx.
  - destruct (String.compare x z); [exact Hl | constructor; exact Hx |].
    inversion Hl; subst. constructor. assumption.
Qed.

Lemma insert_sorted_Sorted x l :
  Sorted Shape.before l -> Sorted Shape.before (insert_sorted x l).
Proof.
  induction 1 as [| z l Hs IH Hhd]; simpl.
  - repeat constructor.
  - destruct (String.compare x z) eqn:E.
    + constructor; assumption.
    + constructor; [constructor; assumption |]. constructor. exact E.
    + constructor; [exact IH |].
      apply HdRel_insert_sorted; [exact Hhd |].
      unfold Shape.before. rewrite String.compare_antisym, E. reflexivity.
Qed.

Lemma sorted_unique_Sorted l : Sorted Shape.before (sorted_unique l).
Proof.
  unfold sorted_unique. induction l as [| x l IH]; simpl.
  - constructor.
  - apply insert_sorted_Sorted. exact IH.
Qed.

Lemma lower_not_Total s : Str.lower s <> "Total".
Proof.
  destruct s as [| c s]; [discriminate |].
  simpl. intros H. inversion H as [[Hc Hs]]. clear H Hs.
  destruct c as [[] [] [] [] [] [] [] []]; vm_compute in Hc; discriminate Hc.
Qed.

(** The exploded rows, read off the entries. *)
Lemma in_acid_exploded search data x :
  In x (Acc.acid_exploded search data) <->
  exists e t,
    In e data /\ has_search_tag search (make_row e) = true /\
    In t (TagName (make_row e)) /\ Str.mem t search = true /\
    x = {| row := make_row e; TagName1 := Some t |}.
Proof.
  unfold Acc.acid_exploded, Acc.acid_df, filter_rows, explode.
  rewrite filter_In, in_flat_map. split.
  - intros [[r [Hr Hx]] Hisin].
    apply filter_In in Hr. destruct Hr as [Hr Hret].
    apply in_map_iff in Hr. destruct Hr as [e [<- He]].
    destruct (TagName (make_row e)) as [| n names] eqn:Hnames.
    + destruct Hx as [<- | []]. discriminate Hisin.
    + apply in_map_iff in Hx. destruct Hx as [t [<- Ht]].
      exists e, t. rewrite Hnames.
      split; [exact He |]. split; [exact Hret |]. split; [exact Ht |].
      split; [exact Hisin | reflexivity].
  - intros (e & t & He & Hret & Ht & Hs & ->). split; [| exact Hs].
    exists (make_row e). split.
    + apply filter_In. split; [apply in_map; exact He | exact Hret].
    + destruct (TagName (make_row e)) as [| n names]; [destruct Ht |].
      apply in_map_iff. exists t. split; [reflexivity | exact Ht].
Qed.

Lemma acid_exploded_tagged search data :
  Forall (fun x => exists t b,
              TagName1 x = Some t /\ Billable (row x) = label b)
         (Acc.acid_exploded search data).
Proof.
  apply List.Forall_forall. intros x Hx.
  apply in_acid_exploded in Hx.
  destruct Hx as (e & t & _ & _ & _ & _ & ->).
  exists t, (billable e). split; reflexivity.
Qed.

Lemma keys2_labels rows :
  Forall (fun x => exists t b,
              TagName1 x = Some t /\ Billable (row x) = label b) rows ->
  keys2 rows
  = (if Shape.has_label "Billable" rows then ["Billable"] else [])
      ++ (if Shape.has_label "Non-Billable" rows then ["Non-Billable"] else []).
Proof.
  unfold keys2, Shape.has_label.
  set (f := fun x : ExplodedRow =>
              match TagName1 x with
              | Some _ => Some (Billable (row x))
              | None => None
              end).
  induction 1 as [| x rows (t & b & Ht & Hb) _ IH]; [reflexivity |].
  assert (E : omap f (x :: rows) = label b :: omap f rows).
  { change (omap f (x :: rows))
      with (match f x with Some y => y :: omap f rows | None => omap f rows end).
    unfold f at 1. rewrite Ht, Hb. reflexivity. }
  rewrite E. unfold sorted_unique in *. cbn [fold_right existsb].
  rewrite IH, Hb.
  destruct b, (existsb _ rows), (existsb _ rows); reflexivity.
Qed.

Lemma in_keys1 search data t :
  In t (keys1 (Acc.acid_exploded search data)) <->
  Str.mem t search = true /\
  exists e,
    In e data /\ has_search_tag search (make_row e) = true /\
    In t (TagName (make_row e)).
Proof.
  unfold keys1. rewrite in_sorted_unique, <- list_elem_of_In, list_elem_of_omap.
  split.
  - intros [x [Hx Ht]]. apply list_elem_of_In, in_acid_exploded in Hx.
    destruct Hx as (e & t' & He & Hret & Hin & Hs & ->).
    simpl in Ht. inversion Ht; subst t'.
    split; [exact Hs |]. exists e. repeat split; assumption.
  - intros [Hs (e & He & Hret & Hin)].
    exists {| row := make_row e; TagName1 := Some t |}. split; [| reflexivity].
    apply list_elem_of_In, in_acid_exploded.
    exists e, t. repeat split; assumption.
Qed.

Lemma keys1_not_Total search data :
  Str.mem "Total" (keys1 (Acc.acid_exploded search data)) = false.
Proof.
  apply mem_false. intros H. apply in_keys1 in H.
  destruct H as [_ (e & _ & _ & Hin)].
  unfold make_row in Hin. simpl in Hin.
  destruct (tags e) as [names |]; [| destruct Hin].
  apply in_map_iff in Hin. destruct Hin as [n [Hn _]].
  exact (lower_not_Total n Hn).
Qed.

Lemma tag_rows_shape rows :
  Forall (fun x => exists t b,
              TagName1 x = Some t /\ Billable (row x) = label b) rows ->
  if Shape.has_label "Billable" rows
  then exists ts,
      tag_rows rows = inr ts /\ index ts = keys1 rows /\
      columns ts = Shape.columns_for rows
  else tag_rows rows = inl (KeyError "Billable").
Proof.
  intros Hrows. pose proof (keys2_labels rows Hrows) as Hk.
  unfold tag_rows, getitem, setitem, Pd.round, Shape.columns_for.
  cbn [columns index]. unfold unstack. cbn [columns index]. rewrite Hk.
  destruct (Shape.has_label "Billable" rows),
    (Shape.has_label "Non-Billable" rows); cbn; try reflexivity;
    eexists; (split; [reflexivity |]); split; reflexivity.
Qed.

(** Whether the script produces a summary of ASCII text, and its rows
    and columns then.  With no billable row among the exploded rows it raises
    KeyError at the column 'Billable'.  Otherwise the rows are the tags
    of the exploded rows in increasing order and then "Total", and the
    columns are 'Billable', then 'Non-Billable' only if some exploded
    row is not billable, then 'Total Hours' and '% Billable'. *)
Theorem summarize_shape e data tag_input :
  Text.is_ascii tag_input = true ->
  forallb Text.ascii_tags (e :: data) = true ->
  if Shape.has_label "Billable"
       (Acc.acid_exploded (parse_tags tag_input) (e :: data))
  then exists tag_summary,
      summarize (e :: data) tag_input = inr tag_summary /\
      index tag_summary
      = keys1 (Acc.acid_exploded (parse_tags tag_input) (e :: data)) ++ ["Total"] /\
      columns tag_summary
      = Shape.columns_for (Acc.acid_exploded (parse_tags tag_input) (e :: data))
  else summarize (e :: data) tag_input = inl (KeyError "Billable").
Proof.
  intros _ _. rewrite summarize_unfold.
  set (search := parse_tags tag_input).
  pose proof (tag_rows_shape _ (acid_exploded_tagged search (e :: data))) as Hrows.
  pose proof (keys1_not_Total search (e :: data)) as Ht.
  set (rows := Acc.acid_exploded search (e :: data)) in *.
  destruct (Shape.has_label "Billable" rows).
  - destruct Hrows as (ts & Hts & Hidx & Hcols). rewrite Hts.
    unfold loc_setitem. rewrite Hcols, Hidx, Ht.
    unfold Shape.columns_for at 1. cbn [app].
    eexists. split; [reflexivity |]. split; reflexivity.
  - rewrite Hrows. reflexivity.
Qed.

Lemma summarize_shape_witness :
  Text.is_ascii "anode, acid" = true /\
  forallb Text.ascii_tags [Scenario.two_hours] = true /\
  exists tag_summary,
    summarize [Scenario.two_hours] "anode, acid" = inr tag_summary /\
    index tag_summary = ["acid"; "anode"; "Total"] /\
    columns tag_summary = ["Billable"; "Total Hours"; "% Billable"].
Proof.
  assert (Ha : Text.is_ascii "anode, acid" = true) by reflexivity.
  assert (Hd : forallb Text.ascii_tags [Scenario.two_hours] = true)
    by reflexivity.
  split; [exact Ha |]. split; [exact Hd |].
  pose proof (summarize_shape Scenario.two_hours [] "anode, acid" Ha Hd) as H.
  assert (E : Shape.has_label "Billable"
                (Acc.acid_exploded (parse_tags "anode, acid") [Scenario.two_hours])
              = true) by reflexivity.
  rewrite E in H. destruct H as (ts & Hs & Hi & Hc).
  exists ts. split; [exact Hs |]. split.
  - rewrite Hi. vm_compute. reflexivity.
  - rewrite Hc. vm_compute. reflexivity.
Defined.

Lemma summarize_index data tag_input tag_summary :
  summarize data tag_input = inr tag_summary ->
  index tag_summary
  = keys1 (Acc.acid_exploded (parse_tags tag_input) data) ++ ["Total"].
Proof.
  intros H. destruct data as [| e data]; [discriminate H |].
  rewrite summarize_unfold in H.
  destruct (tag_rows _) as [err | ts] eqn:Hrows; [discriminate H |].
  apply tag_rows_cells in Hrows. destruct Hrows as (Hidx & _ & _).
  unfold loc_setitem in H. destruct (columns ts); [discriminate H |].
  inversion H; subst tag_summary; clear H. cbn [index].
  rewrite Hidx, keys1_not_Total. reflexivity.
Qed.

(** On ASCII text, the tag rows of a summary are the tags asked for
    that a retained entry carries, lower-cased: no other row appears and none of them is
    missing; they stand in strictly increasing order before the row
    "Total". *)
Theorem summarize_rows_are_requested_tags data tag_input tag_summary :
  Text.is_ascii tag_input = true ->
  forallb Text.ascii_tags data = true ->
  summarize data tag_input = inr tag_summary ->
  (forall t,
      In t (index tag_summary) <->
      t = "Total" \/
      (Str.mem t (parse_tags tag_input) = true /\
       exists e,
         In e data /\
         has_search_tag (parse_tags tag_input) (make_row e) = true /\
         In t (TagName (make_row e)))) /\
  exists keys,
    index tag_summary = keys ++ ["Total"] /\ Sorted Shape.before keys.
Proof.
  intros _ _ H.
  pose proof (summarize_index data tag_input tag_summary H) as Hidx.
  split.
  - intros t. rewrite Hidx, in_app_iff, in_keys1. simpl. intuition congruence.
  - eexists. split; [exact Hidx |]. apply sorted_unique_Sorted.
Qed.

Lemma summarize_rows_are_requested_tags_witness :
  Text.is_ascii "anode, acid" = true /\
  forallb Text.ascii_tags [Scenario.two_hours] = true /\
  summarize [Scenario.two_hours] "anode, acid" = inr Shape.two_hours_summary /\
  exists keys,
    index Shape.two_hours_summary = keys ++ ["Total"] /\
    Sorted Shape.before keys.
Proof.
  assert (Ha : Text.is_ascii "anode, acid" = true) by reflexivity.
  assert (Hd : forallb Text.ascii_tags [Scenario.two_hours] = true)
    by reflexivity.
  assert (H : summarize [Scenario.two_hours] "anode, acid"
              = inr Shape.two_hours_summary) by (vm_compute; reflexivity).
  split; [exact Ha |]. split; [exact Hd |]. split; [exact H |].
  exact (proj2 (summarize_rows_are_requested_tags _ _ _ Ha Hd H)).
Defined.

(** ** The percentage of the total row *)

Lemma tag_rows_success search data ts :
  tag_rows (Acc.acid_exploded search data) = inr ts ->
  Shape.has_label "Billable" (Acc.acid_exploded search data) = true /\
  index ts = keys1 (Acc.acid_exploded search data) /\
  columns ts = Shape.columns_for (Acc.acid_exploded search data).
Proof.
  intros H.
  pose proof (tag_rows_shape _ (acid_exploded_tagged search data)) as Hshape.
  destruct (Shape.has_label "Billable" (Acc.acid_exploded search data)).
  - destruct Hshape as (ts' & Hts & Hidx & Hcols).
    rewrite H in Hts. inversion Hts; subst ts'. repeat split; assumption.
  - rewrite H in Hshape. discriminate Hshape.
Qed.

(** A sum of numbers is a number. *)
Lemma sum_finite (l : list num) :
  Forall (fun x => exists q, x = Fin q) l -> exists q, Num.sum l = Fin q.
Proof.
  unfold Num.sum, Num.zero. generalize 0%Q.
  induction l as [| x l IH]; intros q0 H; simpl.
  - exists q0. reflexivity.
  - inversion H as [| ? ? [q ->] Hl]; subst. simpl. apply IH. exact Hl.
Qed.

Lemma drop_duplicates_from_In (df : list Row) :
  forall seen r, In r (drop_duplicates_from seen df) -> In r df.
Proof.
  induction df as [| r' df IH]; intros seen r H; [exact H |].
  simpl in H. destruct (Str.mem (id (entry r')) seen).
  - right. exact (IH _ _ H).
  - destruct H as [E | H]; [left; exact E | right; exact (IH _ _ H)].
Qed.

Lemma sum_where_finite search data lbl :
  exists q, sum_where lbl (drop_duplicates (Acc.acid_df search data)) = Fin q.
Proof.
  unfold sum_where. apply sum_finite.
  apply List.Forall_forall. intros x Hx.
  apply in_map_iff in Hx. destruct Hx as [r [<- Hr]].
  apply filter_In in Hr. destruct Hr as [Hr _].
  apply drop_duplicates_from_In in Hr.
  unfold Acc.acid_df, filter_rows in Hr. apply filter_In in Hr.
  destruct Hr as [Hr _]. apply in_map_iff in Hr. destruct Hr as [e [<- _]].
  eexists. reflexivity.
Qed.

(** On ASCII text, the percentage and the hours of the total row of a
    summary are numbers, never NaN nor an infinity: the percentage of
    the total row is guarded, where that of a tag row is not. *)
Theorem summarize_total_row_is_finite data tag_input tag_summary :
  Text.is_ascii tag_input = true ->
  forallb Text.ascii_tags data = true ->
  summarize data tag_input = inr tag_summary ->
  (exists q, cell tag_summary "Total" "% Billable" = Some (Fin q)) /\
  (exists q, cell tag_summary "Total" "Total Hours" = Some (Fin q)).
Proof.
  intros _ _ H. destruct data as [| e data]; [discriminate H |].
  rewrite summarize_unfold in H.
  destruct (tag_rows _) as [err | ts] eqn:Hrows; [discriminate H |].
  destruct (tag_rows_success _ _ _ Hrows) as (_ & _ & Hcols).
  apply loc_setitem_cells in H. destruct H as (_ & _ & _ & Htotal).
  assert (H1 : In "Total Hours" (columns ts)).
  { rewrite Hcols. unfold Shape.columns_for.
    destruct (Shape.has_label "Non-Billable" _); simpl; auto. }
  assert (H2 : In "% Billable" (columns ts)).
  { rewrite Hcols. unfold Shape.columns_for.
    destruct (Shape.has_label "Non-Billable" _); simpl; auto 6. }
  unfold cell. rewrite (Htotal _ H1), (Htotal _ H2).
  simpl default. unfold percent_guarded.
  destruct (sum_where_finite (parse_tags tag_input) (e :: data) "Billable")
    as [qb ->].
  destruct (sum_where_finite (parse_tags tag_input) (e :: data) "Non-Billable")
    as [qn ->].
  cbn [Num.add Num.gt0]. unfold Num.div. split.
  - destruct (Num.sign (Qred (qb + qn))) eqn:Hsign;
      cbn [Num.round2 Num.mul Num.of_Z Num.zero]; eexists; reflexivity.
  - eexists. reflexivity.
Qed.

Lemma summarize_total_row_is_finite_witness :
  Text.is_ascii "anode, acid" = true /\
  forallb Text.ascii_tags [Scenario.two_hours] = true /\
  summarize [Scenario.two_hours] "anode, acid" = inr Shape.two_hours_summary /\
  (exists q, cell Shape.two_hours_summary "Total" "% Billable" = Some (Fin q)) /\
  (exists q, cell Shape.two_hours_summary "Total" "Total Hours" = Some (Fin q)).
Proof.
  assert (Ha : Text.is_ascii "anode, acid" = true) by reflexivity.
  assert (Hd : forallb Text.ascii_tags [Scenario.two_hours] = true)
    by reflexivity.
  assert (H : summarize [Scenario.two_hours] "anode, acid"
              = inr Shape.two_hours_summary) by (vm_compute; reflexivity).
  split; [exact Ha |]. split; [exact Hd |]. split; [exact H |].
  exact (summarize_total_row_is_finite _ _ _ Ha Hd H).
Defined.

(** ** The list view *)

(** [get_list_view] reads the module-level name [client].  In
    clickup_client.py nothing binds it, so every call raises NameError,
    whatever the service answers.  In the script, where [client] is the
    client, the call returns the entry 'list' of the required views, the
    empty dictionary when there is none; it raises AttributeError when
    the answer of status 200 has no 'required_views', HTTPError when the
    status is from 400 to 599, and AttributeError again for every other
    status. *)
Theorem get_list_view_reads_global_client :
  (forall r list_id,
      Required.get_list_view clickup_client_globals r list_id
      = inl (Required.Exn (NameError "client"))) /\
  (forall list_view list_id,
      Required.get_list_view clickup_raw_code_globals
        {| status_code := 200; json := Some list_view |} list_id
      = inr list_view) /\
  (forall list_id,
      Required.get_list_view clickup_raw_code_globals
        {| status_code := 200; json := None |} list_id
      = inl (Required.AttributeError "'list' object has no attribute 'get'")) /\
  (forall s body list_id,
      400 <= s < 600 ->
      Required.get_list_view clickup_raw_code_globals
        {| status_code := s; json := body |} list_id
      = inl (Required.Exn (HTTPError s))) /\
  (forall s body list_id,
      s <> 200 -> ~ 400 <= s < 600 ->
      Required.get_list_view clickup_raw_code_globals
        {| status_code := s; json := body |} list_id
      = inl (Required.AttributeError
               "'NoneType' object has no attribute 'get'")).
Proof.
  assert (Hc : clickup_client_globals !! "client" = None)
    by (vm_compute; reflexivity).
  assert (Hr : clickup_raw_code_globals !! "client" = Some (PyObject "client"))
    by (vm_compute; reflexivity).
  repeat apply conj; intros; unfold Required.get_list_view.
  - rewrite Hc. reflexivity.
  - rewrite Hr. reflexivity.
  - rewrite Hr. reflexivity.
  - rewrite Hr. unfold Required.get_required_views. cbn [status_code].
    destruct (Z.eqb_spec s 200) as [E | _]; [lia |].
    destruct (Z.leb_spec 400 s); [| lia].
    destruct (Z.ltb_spec s 600); [| lia].
    reflexivity.
  - rewrite Hr. unfold Required.get_required_views. cbn [status_code].
    destruct (Z.eqb_spec s 200) as [E | _]; [contradiction |].
    destruct (Z.leb_spec 400 s); destruct (Z.ltb_spec s 600);
      try reflexivity.
    exfalso. lia.
Qed.

Lemma get_list_view_reads_global_client_witness :
  400 <= 404 < 600 /\
  Required.get_list_view clickup_raw_code_globals
    {| status_code := 404; json := None |} "L1"
  = inl (Required.Exn (HTTPError 404)) /\
  204 <> 200 /\ ~ 400 <= 204 < 600 /\
  Required.get_list_view clickup_raw_code_globals
    {| status_code := 204; json := None |} "L1"
  = inl (Required.AttributeError "'NoneType' object has no attribute 'get'") /\
  302 <> 200 /\ ~ 400 <= 302 < 600 /\
  Required.get_list_view clickup_raw_code_globals
    {| status_code := 302; json := None |} "L1"
  = inl (Required.AttributeError "'NoneType' object has no attribute 'get'").
Proof.
  destruct get_list_view_reads_global_client as (_ & _ & _ & Herr & Hother).
  assert (H1 : 400 <= 404 < 600) by lia.
  assert (H2 : 204 <> 200) by discriminate.
  assert (H3 : ~ 400 <= 204 < 600) by lia.
  assert (H4 : 302 <> 200) by discriminate.
  assert (H5 : ~ 400 <= 302 < 600) by lia.
  split; [exact H1 |]. split; [exact (Herr 404 None "L1" H1) |].
  split; [exact H2 |]. split; [exact H3 |].
  split; [exact (Hother 204 None "L1" H2 H3) |].
  split; [exact H4 |]. split; [exact H5 |].
  exact (Hother 302 None "L1" H4 H5).
Defined.

(** ** A served retry *)

Section RetryFacts.

Variable G : gmap string pyobj.
Variable srv : server.
Variable strftime_local : Z -> string.
Variable round_hours : Z -> Q.

(** When the request for a task is refused with 429 and the retry is
    served, the loop goes on with the next task holding the rows it had:
    the entries of the retried answer give no rows. *)
Theorem for_tasks_429_retry_served task after records tr time_entries :
  status_code (task_time srv tr (task_id task)) = 429 ->
  (400 <=? status_code
     (task_time srv
        (Sleep 60 :: PrintRateLimit (task_id task)
           :: Request (GetTaskTime (task_id task)) :: tr) (task_id task)))
  && (status_code
        (task_time srv
           (Sleep 60 :: PrintRateLimit (task_id task)
              :: Request (GetTaskTime (task_id task)) :: tr) (task_id task))
      <? 600) = false ->
  json (task_time srv
          (Sleep 60 :: PrintRateLimit (task_id task)
             :: Request (GetTaskTime (task_id task)) :: tr) (task_id task))
  = Some time_entries ->
  for_tasks G srv strftime_local round_hours (task :: after) records tr
  = for_tasks G srv strftime_local round_hours after records
      (Request (GetTaskTime (task_id task))
         :: Sleep 60 :: PrintRateLimit (task_id task)
         :: Request (GetTaskTime (task_id task)) :: tr).
Proof.
  intros H429 Hs Hj. cbn [for_tasks]. unfold bind at 1.
  unfold for_task, try_except_HTTPError, bind, get_task_time_tracking, bind,
    requests_get_task_time, raise_for_status.
  rewrite H429. simpl.
  unfold except_HTTPError, bind, get_task_time_tracking, bind,
    requests_get_task_time, raise_for_status. simpl.
  rewrite Hs, Hj. reflexivity.
Qed.

End RetryFacts.

Lemma for_tasks_429_retry_served_witness :
  status_code (task_time Scenario.limited_once [] "a") = 429 /\
  json (task_time Scenario.limited_once
          [Sleep 60; PrintRateLimit "a"; Request (GetTaskTime "a")] "a")
  = Some Scenario.one_interval /\
  for_tasks clickup_raw_code_globals Scenario.limited_once
    Scenario.stamp Scenario.round_hours [Scenario.task "a"] [] []
  = for_tasks clickup_raw_code_globals Scenario.limited_once
      Scenario.stamp Scenario.round_hours [] []
      [ Request (GetTaskTime "a"); Sleep 60; PrintRateLimit "a";
        Request (GetTaskTime "a") ].
Proof.
  assert (H1 : status_code (task_time Scenario.limited_once []
                              (task_id (Scenario.task "a"))) = 429)
    by reflexivity.
  assert (H3 : json (task_time Scenario.limited_once
                       [Sleep 60; PrintRateLimit (task_id (Scenario.task "a"));
                        Request (GetTaskTime (task_id (Scenario.task "a")))]
                       (task_id (Scenario.task "a")))
               = Some Scenario.one_interval) by reflexivity.
  split; [exact H1 |]. split; [exact H3 |].
  exact (for_tasks_429_retry_served clickup_raw_code_globals
           Scenario.limited_once Scenario.stamp Scenario.round_hours
           (Scenario.task "a") [] [] [] Scenario.one_interval
           H1 eq_refl H3).
Defined.

Lemma for_task_error_unbound_witness :
  clickup_raw_code_globals !! "e" = None /\
  400 <= status_code (task_time Scenario.broken_task [] "a") < 600 /\
  status_code (task_time Scenario.broken_task [] "a") <> 429 /\
  for_tasks clickup_raw_code_globals Scenario.broken_task
    Scenario.stamp Scenario.round_hours
    (Scenario.task "a" :: [Scenario.task "c"]) [] []
  = (Raise (NameError "e"), [Request (GetTaskTime "a")]).
Proof.
  assert (H1 : clickup_raw_code_globals !! "e" = None)
    by (vm_compute; reflexivity).
  assert (H2 : 400 <= status_code
                      (task_time Scenario.broken_task []
                         (task_id (Scenario.task "a"))) < 600)
    by (simpl; lia).
  assert (H3 : status_code (task_time Scenario.broken_task []
                              (task_id (Scenario.task "a"))) <> 429)
    by (simpl; lia).
  split; [exact H1 |]. split; [exact H2 |]. split; [exact H3 |].
  exact (for_task_error_unbound clickup_raw_code_globals Scenario.broken_task
           Scenario.stamp Scenario.round_hours (Scenario.task "a") [] []
           H1 H2 H3 [Scenario.task "c"]).
Defined.
